(** * Grasp task of the robot-manipulator environment

    A shallow embedding of [gym_envs/envs/tasks/grasp.py] (class [Grasp])
    and the properties of its goal sampling, reward and success predicate.

    Modelling conventions.
    - Python floats and NumPy float arrays are modelled over the real
      numbers [R]; a change of float width ([astype(np.float32)]) is the
      identity on the modelled value.
    - NumPy arrays of rank at most two are values of [ndarray], with
      NumPy's broadcasting written out; an operation that NumPy or Python
      rejects returns [Raise].
    - An exception is a value of [exn]; fallible code lives in the
      [result] monad, methods of the task in the [method] monad, which
      threads the task object through.
    - The simulator and the random generator are collaborators the task
      only calls: they are interfaces ([PyBullet], [Generator]), and a
      property holds for every implementation of them. *)

From Stdlib Require Import Reals Lra Lia ZArith.
From stdpp Require Import base option list strings.

Local Open Scope R_scope.

(** ** Exceptions and the error monad *)

Inductive exn : Type :=
| KeyError (key : string)
| TypeError
| IndexError
| ValueError
| AxisError
| RuntimeError (msg : string).

Inductive result (A : Type) : Type :=
| Ok (a : A)
| Raise (e : exn).
Arguments Ok {A} a.
Arguments Raise {A} e.

#[export] Instance result_ret : MRet result := fun _ a => Ok a.
#[export] Instance result_bind : MBind result := fun _ _ f m =>
  match m with
  | Ok a => f a
  | Raise e => Raise e
  end.
#[export] Instance result_fmap : FMap result := fun _ _ f m =>
  match m with
  | Ok a => Ok (f a)
  | Raise e => Raise e
  end.

(** [try: m  except: h] with a bare [except], which catches everything. *)
Definition try_except {A} (m : result A) (h : exn -> result A) : result A :=
  match m with
  | Ok a => Ok a
  | Raise e => h e
  end.

(** A list comprehension whose body may raise: the first failure aborts. *)
Fixpoint comprehension {A B} (f : A -> result B) (l : list A) : result (list B) :=
  match l with
  | [] => Ok []
  | a :: l' => b ← f a; bs ← comprehension f l'; Ok (b :: bs)
  end.

Definition is_ok {A} (m : result A) : bool :=
  match m with
  | Ok _ => true
  | Raise _ => false
  end.

(** ** Comparison of reals as a boolean *)

Definition Rltb (x y : R) : bool := if Rlt_dec x y then true else false.

(** ** Three-component vectors: [np.array([x, y, z])] *)

Record vec3 : Type := Vec3 { vx : R; vy : R; vz : R }.

Definition vec3_add (a b : vec3) : vec3 :=
  Vec3 (vx a + vx b) (vy a + vy b) (vz a + vz b).

(** [v[2] = x] on a three-component array. *)
Definition vec3_set2 (v : vec3) (x : R) : vec3 := Vec3 (vx v) (vy v) x.

Definition vec3_list (v : vec3) : list R := [vx v; vy v; vz v].

(** ** NumPy arrays of rank 0, 1 and 2 *)

Inductive ndarray (A : Type) : Type :=
| A0 (x : A)                            (* shape ()         *)
| A1 (xs : list A)                      (* shape (n,)       *)
| A2 (cols : nat) (rows : list (list A)) (* shape (n, cols) *).
Arguments A0 {A} x.
Arguments A1 {A} xs.
Arguments A2 {A} cols rows.

Definition amap {A B} (f : A -> B) (a : ndarray A) : ndarray B :=
  match a with
  | A0 x => A0 (f x)
  | A1 xs => A1 (map f xs)
  | A2 c rows => A2 c (map (map f) rows)
  end.

(** The array a three-component vector is. *)
Definition arr (v : vec3) : ndarray R := A1 (vec3_list v).

(** [np.array(l)] for a Python list [l] of three-component arrays: an
    empty list gives the empty rank-1 array, of shape (0,). *)
Definition np_array_vecs (l : list vec3) : ndarray R :=
  match l with
  | [] => A1 []
  | _ :: _ => A2 3 (map vec3_list l)
  end.

(** *** Broadcasting *)

(** Two axis lengths are compatible when equal or when one of them is 1. *)
Definition bdim (m n : nat) : result nat :=
  if (m =? n)%nat then Ok m
  else if (m =? 1)%nat then Ok n
  else if (n =? 1)%nat then Ok m
  else Raise ValueError.

Definition bzip {A B C} (f : A -> B -> C) (xs : list A) (ys : list B)
  : result (list C) :=
  if (length xs =? length ys)%nat then Ok (zip_with f xs ys)
  else match xs, ys with
       | [x], _ => Ok (map (f x) ys)
       | _, [y] => Ok (map (fun x => f x y) xs)
       | _, _ => Raise ValueError
       end.

(** An elementwise binary operation on two arrays, with broadcasting. *)
Definition broadcast2 {A B C} (f : A -> B -> C) (a : ndarray A) (b : ndarray B)
  : result (ndarray C) :=
  match a, b with
  | A0 x, _ => Ok (amap (f x) b)
  | _, A0 y => Ok (amap (fun x => f x y) a)
  | A1 xs, A1 ys => A1 <$> bzip f xs ys
  | A1 xs, A2 c rows =>
      c' ← bdim (length xs) c;
      rows' ← comprehension (bzip f xs) rows;
      Ok (A2 c' rows')
  | A2 c rows, A1 ys =>
      c' ← bdim c (length ys);
      rows' ← comprehension (fun r => bzip f r ys) rows;
      Ok (A2 c' rows')
  | A2 c1 rows1, A2 c2 rows2 =>
      c' ← bdim c1 c2;
      rows ← bzip (bzip f) rows1 rows2;
      rows' ← comprehension (fun r => r) rows;
      Ok (A2 c' rows')
  end.

(** *** The operations the task uses *)

Definition np_sub := broadcast2 Rminus.
Definition np_add := broadcast2 Rplus.
Definition np_and := broadcast2 andb.

Definition np_abs : ndarray R -> ndarray R := amap Rabs.
Definition np_neg : ndarray R -> ndarray R := amap Ropp.
Definition np_invert : ndarray bool -> ndarray bool := amap negb.

(** [a < c] and [k * a] for a Python scalar [c], [k]. *)
Definition np_lt (a : ndarray R) (c : R) : ndarray bool :=
  amap (fun x => Rltb x c) a.
Definition np_gt (a : ndarray R) (c : R) : ndarray bool :=
  amap (fun x => Rltb c x) a.
Definition np_scale (k : R) (a : ndarray R) : ndarray R := amap (Rmult k) a.
Definition np_scale_int (k : Z) (a : ndarray Z) : ndarray Z := amap (Z.mul k) a.

(** [a.astype(int)] on a boolean array, and the promotion of an integer
    array to float when it meets a float array. *)
Definition astype_int : ndarray bool -> ndarray Z := amap Z.b2z.
Definition promote : ndarray Z -> ndarray R := amap IZR.

(** [np.clip(a, a_min=lo, a_max=hi)] *)
Definition np_clip (a : ndarray R) (lo hi : R) : ndarray R :=
  amap (fun x => Rmin (Rmax x lo) hi) a.

(** [a.astype(np.float32)]: the identity on the modelled value. *)
Definition astype_float32 (a : ndarray R) : ndarray R := a.

(** [a.T] *)
Fixpoint transpose {A} (cols : nat) (rows : list (list A)) : list (list A) :=
  match rows with
  | [] => replicate cols []
  | r :: rows' => zip_with cons r (transpose cols rows')
  end.

Definition np_T {A} (a : ndarray A) : ndarray A :=
  match a with
  | A0 x => A0 x
  | A1 xs => A1 xs
  | A2 c rows => A2 (length rows) (transpose c rows)
  end.

(** [a[i]] for a non-negative integer [i]. *)
Definition getitem {A} (a : ndarray A) (i : nat) : result (ndarray A) :=
  match a with
  | A0 _ => Raise IndexError
  | A1 xs => match xs !! i with Some x => Ok (A0 x) | None => Raise IndexError end
  | A2 _ rows => match rows !! i with Some r => Ok (A1 r) | None => Raise IndexError end
  end.

(** [np.linalg.norm(a, axis=-1)]: the 2-norm along the last axis. *)
Definition norm2 (xs : list R) : R :=
  sqrt (foldr Rplus 0 (map (fun x => x * x) xs)).

Definition norm_last_axis (a : ndarray R) : result (ndarray R) :=
  match a with
  | A0 _ => Raise AxisError
  | A1 xs => Ok (A0 (norm2 xs))
  | A2 _ rows => Ok (A1 (map norm2 rows))
  end.

(** Modelled from the spec: [gym_envs.utils.distance] is not among the
    sources.  The spec calls it the euclidean distance of its two
    arguments, vectorised over batches: the norm of the difference along
    the last axis. *)
Definition distance (a b : ndarray R) : result (ndarray R) :=
  d ← np_sub a b; norm_last_axis d.

(** ** The per-step info bundle *)

(** A Python dict with the keys the task reads, each present or not, and
    the keys it carries besides.  The values are typed as the data model
    of the specification types them: a three-component array under
    ["pos_tcp"], booleans under ["grasp"] and ["collisions"]. *)
Record StepInfo : Type := {
  pos_tcp : option vec3;
  grasp : option bool;
  collisions : option bool;
  other_keys : list string;
}.

(** The [info] argument: one record, or a sequence of records. *)
Inductive info_arg : Type :=
| InfoDict (d : StepInfo)
| InfoList (l : list StepInfo).

Definition key_of {A} (key : string) (field : option A) : list string :=
  match field with
  | Some _ => [key]
  | None => []
  end.

Definition dict_keys (d : StepInfo) : list string :=
  key_of "pos_tcp" (pos_tcp d) ++ key_of "grasp" (grasp d)
  ++ key_of "collisions" (collisions d) ++ other_keys d.

(** What [for dd in info] yields: the records of a list, the keys of a
    dict. *)
Inductive item : Type :=
| ItemDict (d : StepInfo)
| ItemStr (s : string).

Definition iter (info : info_arg) : list item :=
  match info with
  | InfoDict d => map ItemStr (dict_keys d)
  | InfoList l => map ItemDict l
  end.

(** [d[key]] on a dict. *)
Definition dict_getitem {A} (key : string) (field : option A) : result A :=
  match field with
  | Some a => Ok a
  | None => Raise (KeyError key)
  end.

(** [dd[key]] on what the iteration yields: a string cannot be indexed by
    a string. *)
Definition item_getitem {A} (dd : item) (key : string)
  (field : StepInfo -> option A) : result A :=
  match dd with
  | ItemDict d => dict_getitem key (field d)
  | ItemStr _ => Raise TypeError
  end.

(** [info[key]] on the argument itself: a list cannot be indexed by a
    string. *)
Definition info_getitem {A} (info : info_arg) (key : string)
  (field : StepInfo -> option A) : result A :=
  match info with
  | InfoDict d => dict_getitem key (field d)
  | InfoList _ => Raise TypeError
  end.

(** ** The reward: the code that reads no field of the task *)

(** [Grasp.check_position_for_grasp].  The closing
    [np.array(...).astype(bool)] is the identity on a boolean array. *)
Definition check_position_for_grasp (pos_tcp pos_obj : ndarray R)
  : result (ndarray bool) :=
  let pos_tcp := np_T pos_tcp in
  let pos_obj := np_T pos_obj in
  t0 ← getitem pos_tcp 0; o0 ← getitem pos_obj 0; d0 ← np_sub t0 o0;
  let c0 := np_lt (np_abs d0) (2 / 100) in
  t1 ← getitem pos_tcp 1; o1 ← getitem pos_obj 1; d1 ← np_sub t1 o1;
  let c1 := np_lt (np_abs d1) (2 / 100) in
  c01 ← np_and c0 c1;
  t2 ← getitem pos_tcp 2; o2 ← getitem pos_obj 2; d2 ← np_sub t2 o2;
  let c2 := np_lt (np_abs d2) (1 / 100) in
  np_and c01 c2.

(** The [try] block of [compute_reward]: the batch reading of [info].
    [astype(bool)], which the block applies to the grasp flags only, is
    the identity on booleans. *)
Definition info_batch (info : info_arg)
  : result (ndarray R * ndarray bool * ndarray bool) :=
  p ← comprehension (fun dd => item_getitem dd "pos_tcp" pos_tcp) (iter info);
  g ← comprehension (fun dd => item_getitem dd "grasp" grasp) (iter info);
  c ← comprehension (fun dd => item_getitem dd "collisions" collisions) (iter info);
  Ok (np_array_vecs p, A1 g, A1 c).

(** The [except] block: the reading of [info] as one record. *)
Definition info_scalar (info : info_arg)
  : result (ndarray R * ndarray bool * ndarray bool) :=
  p ← info_getitem info "pos_tcp" pos_tcp;
  g ← info_getitem info "grasp" grasp;
  c ← info_getitem info "collisions" collisions;
  Ok (arr p, A0 g, A0 c).

(** The local variables of [Grasp.compute_reward] at its last line. *)
Record reward_locals : Type := {
  reach_reward : ndarray R;
  position_for_grasp : ndarray bool;
  grasp_reward : ndarray Z;
  penalty_for_pushing : ndarray Z;
  obj_to_target : ndarray R;
  total_reward : ndarray R;
}.

(** The body of [Grasp.compute_reward] up to its [return]. *)
Definition compute_reward_locals (achieved_goal desired_goal : ndarray R)
  (info : info_arg) : result reward_locals :=
  '(pos_tcp, gripper_action, collisions) ←
    try_except (info_batch info) (fun _ => info_scalar info);
  reach_reward ← distance pos_tcp achieved_goal;
  position_for_grasp ← check_position_for_grasp pos_tcp achieved_goal;
  grasp_reward ← astype_int <$> np_and position_for_grasp collisions;
  penalty_for_pushing ←
    astype_int <$> np_and collisions (np_invert position_for_grasp);
  obj_to_target ← distance achieved_goal desired_goal;
  r1 ← np_add (np_neg reach_reward) (promote (astype_int position_for_grasp));
  r2 ← np_add r1 (promote (np_scale_int 5 grasp_reward));
  r3 ← np_sub r2 (np_scale 10 obj_to_target);
  total_reward ← np_sub r3 (promote (np_scale_int 2 penalty_for_pushing));
  Ok {| reach_reward := reach_reward;
        position_for_grasp := position_for_grasp;
        grasp_reward := grasp_reward;
        penalty_for_pushing := penalty_for_pushing;
        obj_to_target := obj_to_target;
        total_reward := total_reward |}.

(** The body of [Grasp.compute_reward]. *)
Definition compute_reward_body (achieved_goal desired_goal : ndarray R)
  (info : info_arg) : result (ndarray R) :=
  locals ← compute_reward_locals achieved_goal desired_goal info;
  Ok (astype_float32 (total_reward locals)).

(** ** The collaborators: simulator and random generator *)

(** Modelled from the spec: the physics backend
    ([gym_envs.pybullet.PyBullet]) is not among the sources.  The spec
    lists the calls the task makes on it and treats it as a black box, so
    it is an interface here: a simulator state is a value of [Sim], and a
    call that changes the scene returns the new state.  Simulator calls
    are taken to succeed. *)
Class PyBullet (Sim : Type) : Type := {
  create_plane (z_offset : R) : Sim -> Sim;
  create_table (length width height x_offset : R) : Sim -> Sim;
  create_box (body_name : string) (half_extents : vec3) (mass : R)
    (ghost : bool) (position : vec3) (rgba_color : list R) : Sim -> Sim;
  set_lateral_friction (body : string) (link : Z) (friction : R) : Sim -> Sim;
  set_rolling_friction (body : string) (link : Z) (friction : R) : Sim -> Sim;
  no_rendering_enter : Sim -> Sim;
  no_rendering_exit : Sim -> Sim;
  get_base_position (body : string) : Sim -> vec3;
  get_base_rotation (body : string) : Sim -> list R;
  get_base_velocity (body : string) : Sim -> vec3;
  get_base_angular_velocity (body : string) : Sim -> vec3;
  set_base_pose (body : string) (position : vec3) (orientation : list R)
    : Sim -> Sim;
}.

(** The task's random generator ([self.np_random]): a state from which
    the next double of [0, 1) is drawn. *)
Class Generator (Gen : Type) : Type := {
  next_double : Gen -> R * Gen;
}.

Section GraspTask.
Context {Sim Gen : Type} `{PyBullet Sim} `{Generator Gen}.

(** [np_random.random()] *)
Definition random (g : Gen) : R * Gen := next_double g.

(** [np_random.uniform(low, high)] on three-component arrays: one draw
    per component, in order, each scaled into its interval. *)
Definition uniform (low high : vec3) (g : Gen) : vec3 * Gen :=
  let '(u0, g) := next_double g in
  let '(u1, g) := next_double g in
  let '(u2, g) := next_double g in
  (Vec3 (vx low + (vx high - vx low) * u0)
        (vy low + (vy high - vy low) * u1)
        (vz low + (vz high - vz low) * u2), g).

(** *** The task object *)

(** The fields of a [Grasp] instance.  [goal] is [None] until the first
    reset.  The fields [robot] and [check_collision] hold callables that
    no method of the class calls; they are left out. *)
Record Grasp : Type := {
  sim : Sim;
  np_random : Gen;
  goal : option vec3;
  initial_height : R;
  reward_type : string;
  distance_threshold : R;
  object_size : R;
  goal_range_low : vec3;
  goal_range_high : vec3;
  obj_range_low : vec3;
  obj_range_high : vec3;
}.

Definition set_sim (s : Sim) (self : Grasp) : Grasp :=
  {| sim := s; np_random := np_random self; goal := goal self;
     initial_height := initial_height self; reward_type := reward_type self;
     distance_threshold := distance_threshold self;
     object_size := object_size self;
     goal_range_low := goal_range_low self;
     goal_range_high := goal_range_high self;
     obj_range_low := obj_range_low self;
     obj_range_high := obj_range_high self |}.

Definition set_np_random (g : Gen) (self : Grasp) : Grasp :=
  {| sim := sim self; np_random := g; goal := goal self;
     initial_height := initial_height self; reward_type := reward_type self;
     distance_threshold := distance_threshold self;
     object_size := object_size self;
     goal_range_low := goal_range_low self;
     goal_range_high := goal_range_high self;
     obj_range_low := obj_range_low self;
     obj_range_high := obj_range_high self |}.

Definition set_goal (v : vec3) (self : Grasp) : Grasp :=
  {| sim := sim self; np_random := np_random self; goal := Some v;
     initial_height := initial_height self; reward_type := reward_type self;
     distance_threshold := distance_threshold self;
     object_size := object_size self;
     goal_range_low := goal_range_low self;
     goal_range_high := goal_range_high self;
     obj_range_low := obj_range_low self;
     obj_range_high := obj_range_high self |}.

Definition set_initial_height (h : R) (self : Grasp) : Grasp :=
  {| sim := sim self; np_random := np_random self; goal := goal self;
     initial_height := h; reward_type := reward_type self;
     distance_threshold := distance_threshold self;
     object_size := object_size self;
     goal_range_low := goal_range_low self;
     goal_range_high := goal_range_high self;
     obj_range_low := obj_range_low self;
     obj_range_high := obj_range_high self |}.

Definition set_reward_type (t : string) (self : Grasp) : Grasp :=
  {| sim := sim self; np_random := np_random self; goal := goal self;
     initial_height := initial_height self; reward_type := t;
     distance_threshold := distance_threshold self;
     object_size := object_size self;
     goal_range_low := goal_range_low self;
     goal_range_high := goal_range_high self;
     obj_range_low := obj_range_low self;
     obj_range_high := obj_range_high self |}.

(** *** Methods: a computation on the task object that may raise *)

Definition method (A : Type) : Type := Grasp -> result A * Grasp.

#[export] Instance method_ret : MRet method :=
  fun _ a self => (Ok a, self).
#[export] Instance method_bind : MBind method :=
  fun _ _ k m self =>
    match m self with
    | (Ok a, self') => k a self'
    | (Raise e, self') => (Raise e, self')
    end.

Definition raise {A} (e : exn) : method A := fun self => (Raise e, self).
(** A computation that touches no field. *)
Definition lift {A} (r : result A) : method A := fun self => (r, self).
(** Reading a field, assigning to the object, calling the simulator. *)
Definition read {A} (field : Grasp -> A) : method A :=
  fun self => (Ok (field self), self).
Definition assign (update : Grasp -> Grasp) : method unit :=
  fun self => (Ok tt, update self).
Definition sim_call (f : Sim -> Sim) : method unit :=
  assign (fun self => set_sim (f (sim self)) self).
Definition sim_query {A} (f : Sim -> A) : method A :=
  read (fun self => f (sim self)).
(** [with self.sim.no_rendering(): body]: the exit runs whether or not
    the body raises. *)
Definition with_no_rendering {A} (body : method A) : method A :=
  fun self =>
    let '(r, self') := body (set_sim (no_rendering_enter (sim self)) self) in
    (r, set_sim (no_rendering_exit (sim self')) self').

(** [Grasp._create_scene] *)
Definition _create_scene : method unit :=
  object_size ← read object_size;
  let half_extents :=
    Vec3 (1 * object_size / 2) (1 * object_size / 2) (1 * object_size / 2) in
  sim_call (create_plane (- (4 / 10)));;
  sim_call (create_table (11 / 10) (7 / 10) (4 / 10) (- (3 / 10)));;
  sim_call (create_box "object" half_extents 1 false
              (Vec3 0 (- (2 / 10)) (object_size / 2))
              [1 / 10; 9 / 10; 1 / 10; 1]);;
  sim_call (set_lateral_friction "object" (-1) 10);;
  sim_call (set_rolling_friction "object" (-1) (1 / 100));;
  sim_call (create_box "target" half_extents 0 true
              (Vec3 0 (2 / 10) (1 / 10))
              [1 / 10; 9 / 10; 1 / 10; 3 / 10]).

(** Drawing from [self.np_random], which advances the generator. *)
Definition draw {A} (f : Gen -> A * Gen) : method A :=
  fun self =>
    let '(a, g) := f (np_random self) in (Ok a, set_np_random g self).

(** [Grasp.__init__].  The generator is the one the episode loop
    installs as [self.np_random].

    Modelled from the spec: the base class [gym_envs.envs.core.Task] is
    not among the sources; its constructor stores the simulator and
    leaves the task without a goal, which [get_desired_goal] tests
    for. *)
Definition __init__ (sim : Sim) (np_random : Gen) (reward_type : string)
  (distance_threshold goal_xy_range goal_z_range obj_xy_range : R) : Grasp :=
  let self :=
    {| sim := sim; np_random := np_random; goal := None;
       initial_height := 0;
       reward_type := reward_type;
       distance_threshold := distance_threshold;
       object_size := 4 / 100;
       goal_range_low := Vec3 (- goal_xy_range / 2) (- goal_xy_range / 2) 0;
       goal_range_high := Vec3 (goal_xy_range / 2) (goal_xy_range / 2) goal_z_range;
       obj_range_low := Vec3 (- obj_xy_range / 2) (- obj_xy_range / 2) 0;
       obj_range_high := Vec3 (obj_xy_range / 2) (obj_xy_range / 2) 0 |} in
  snd (with_no_rendering _create_scene self).

(** [Grasp.get_obs] *)
Definition get_obs : method (ndarray R) :=
  object_position ← sim_query (get_base_position "object");
  object_rotation ← sim_query (get_base_rotation "object");
  object_velocity ← sim_query (get_base_velocity "object");
  object_angular_velocity ← sim_query (get_base_angular_velocity "object");
  mret (A1 (vec3_list object_position ++ object_rotation
            ++ vec3_list object_velocity
            ++ vec3_list object_angular_velocity)).

(** [Grasp.get_achieved_goal] *)
Definition get_achieved_goal : method (ndarray R) :=
  pos_obj ← sim_query (get_base_position "object");
  mret (arr pos_obj).

(** [Grasp.get_desired_goal] *)
Definition get_desired_goal : method (ndarray R) :=
  goal ← read goal;
  match goal with
  | None => raise (RuntimeError "No goal yet, call reset() first")
  | Some goal => mret (arr goal)
  end.

(** [Grasp._sample_goal] *)
Definition _sample_goal : method vec3 :=
  object_size ← read object_size;
  let goal := Vec3 0 (2 / 10) (15 / 100 + object_size / 2) in
  low ← read goal_range_low;
  high ← read goal_range_high;
  noise ← draw (uniform low high);
  u ← draw random;
  let noise := if Rltb u (3 / 10) then vec3_set2 noise 0 else noise in
  mret (vec3_add goal noise).

(** [Grasp._sample_object] *)
Definition _sample_object : method vec3 :=
  object_size ← read object_size;
  let object_position := Vec3 0 (- (2 / 10)) (object_size / 2) in
  low ← read obj_range_low;
  high ← read obj_range_high;
  noise ← draw (uniform low high);
  mret (vec3_add object_position noise).

(** [Grasp.reset] *)
Definition reset : method unit :=
  goal ← _sample_goal;
  assign (set_goal goal);;
  object_position ← _sample_object;
  sim_call (set_base_pose "target" goal [0; 0; 0; 1]);;
  sim_call (set_base_pose "object" object_position [0; 0; 0; 1]);;
  position ← sim_query (get_base_position "object");
  assign (set_initial_height (vz position)).

(** [Grasp.is_success] *)
Definition is_success (achieved_goal desired_goal : ndarray R)
  : method (ndarray bool) :=
  d ← lift (distance achieved_goal desired_goal);
  distance_threshold ← read distance_threshold;
  mret (np_lt d distance_threshold).

(** [Grasp.compute_reward] *)
Definition compute_reward (achieved_goal desired_goal : ndarray R)
  (info : info_arg) : method (ndarray R) :=
  lift (compute_reward_body achieved_goal desired_goal info).

(** [Grasp.height_penalty] *)
Definition height_penalty (pos_obj : ndarray R) : method (ndarray Z) :=
  let pos_obj := np_T pos_obj in
  z ← lift (getitem pos_obj 2);
  initial_height ← read initial_height;
  diff ← lift (np_sub z (A0 initial_height));
  mret (astype_int (np_gt diff (15 / 100))).

(** [Grasp.height_diff] *)
Definition height_diff (pos_obj : ndarray R) : method (ndarray R) :=
  let pos_obj := np_T pos_obj in
  z ← lift (getitem pos_obj 2);
  initial_height ← read initial_height;
  d ← lift (np_sub z (A0 initial_height));
  mret (np_clip d 0 (15 / 100)).

(** *** The episode loop's calls *)

(** The exposed operations other than [reset]. *)
Inductive query : Type :=
| GetObs
| GetAchievedGoal
| GetDesiredGoal
| IsSuccess (achieved_goal desired_goal : ndarray R)
| ComputeReward (achieved_goal desired_goal : ndarray R) (info : info_arg).

Inductive call : Type :=
| Reset
| Query (q : query).

(** The task after a call, whether the call returned or raised. *)
Definition after_query (q : query) (self : Grasp) : Grasp :=
  match q with
  | GetObs => snd (get_obs self)
  | GetAchievedGoal => snd (get_achieved_goal self)
  | GetDesiredGoal => snd (get_desired_goal self)
  | IsSuccess a d => snd (is_success a d self)
  | ComputeReward a d info => snd (compute_reward a d info self)
  end.

Definition after (c : call) (self : Grasp) : Grasp :=
  match c with
  | Reset => snd (reset self)
  | Query q => after_query q self
  end.

(** The task after a sequence of calls, first call first. *)
Definition run (calls : list call) (self : Grasp) : Grasp :=
  foldl (fun self c => after c self) self calls.

(** The two draws of a reset, as [reset] makes them: the goal, stored in
    the task, then the object position. *)
Definition reset_samples : method (vec3 * vec3) :=
  goal ← _sample_goal;
  assign (set_goal goal);;
  object_position ← _sample_object;
  mret (goal, object_position).

(** The samples of [n] resets in a row. *)
Fixpoint sample_sequence (n : nat) (self : Grasp) : list (result (vec3 * vec3)) :=
  match n with
  | O => []
  | S n' => fst (reset_samples self) :: sample_sequence n' (snd (reset self))
  end.
End GraspTask.

(** ** A scripted simulator and generator *)

(** The position last given to a body, the origin for an unknown one. *)
Fixpoint last_position (body : string) (s : list (string * vec3)) : vec3 :=
  match s with
  | [] => Vec3 0 0 0
  | (b, position) :: s' =>
      if String.eqb b body then position else last_position body s'
  end.

(** A simulator that keeps the position last given to each body. *)
#[export] Instance table_sim : PyBullet (list (string * vec3)) := {
  create_plane _ s := s;
  create_table _ _ _ _ s := s;
  create_box body_name _ _ _ position _ s := (body_name, position) :: s;
  set_lateral_friction _ _ _ s := s;
  set_rolling_friction _ _ _ s := s;
  no_rendering_enter s := s;
  no_rendering_exit s := s;
  get_base_position body s := last_position body s;
  get_base_rotation _ _ := [0; 0; 0; 1];
  get_base_velocity _ _ := Vec3 0 0 0;
  get_base_angular_velocity _ _ := Vec3 0 0 0;
  set_base_pose body position _ s := (body, position) :: s;
}.

(** A generator that plays a script of doubles, then zeros. *)
#[export] Instance script_gen : Generator (list R) := {
  next_double g :=
    match g with
    | [] => (0, [])
    | u :: g' => (u, g')
    end;
}.

(** A task with the constructor's defaults. *)
Definition default_task (script : list R) : @Grasp (list (string * vec3)) (list R) :=
  __init__ [] script "sparse" (5 / 100) (1 / 10) 0 (1 / 10).

(** ** The vocabulary of the properties *)

(** The euclidean distance of two points. *)
Definition euclidean_distance (p q : vec3) : R :=
  sqrt ((vx p - vx q) * (vx p - vx q) + (vy p - vy q) * (vy p - vy q)
        + (vz p - vz q) * (vz p - vz q)).

(** The per-axis proximity test: within 0.02 on x and y, 0.01 on z. *)
Definition within_grasp_tolerance (tcp obj : vec3) : bool :=
  Rltb (Rabs (vx tcp - vx obj)) (2 / 100)
  && Rltb (Rabs (vy tcp - vy obj)) (2 / 100)
  && Rltb (Rabs (vz tcp - vz obj)) (1 / 100).

(** A boolean as 0 or 1. *)
Definition b2r (b : bool) : R := if b then 1 else 0.

(** The shaped reward of one sample. *)
Definition shaped_reward (tcp achieved desired : vec3) (collisions : bool) : R :=
  let reach_reward := euclidean_distance tcp achieved in
  let grasp_reward := b2r (within_grasp_tolerance tcp achieved && collisions) in
  let penalty_for_pushing :=
    b2r (collisions && negb (within_grasp_tolerance tcp achieved)) in
  let obj_to_target := euclidean_distance achieved desired in
  - reach_reward + b2r (within_grasp_tolerance tcp achieved) + 5 * grasp_reward
  - 10 * obj_to_target - 2 * penalty_for_pushing.

(** A well-formed record: every field the task reads is present. *)
Definition step_info (tcp : vec3) (g c : bool) (others : list string) : StepInfo :=
  {| pos_tcp := Some tcp; grasp := Some g; collisions := Some c;
     other_keys := others |}.

(** Every field the task reads is present. *)
Definition complete (d : StepInfo) : bool :=
  match pos_tcp d, grasp d, collisions d with
  | Some _, Some _, Some _ => true
  | _, _, _ => false
  end.

Definition bundle_complete (info : info_arg) : bool :=
  match info with
  | InfoDict d => complete d
  | InfoList l => forallb complete l
  end.

(** The exception an incomplete bundle ends in.  A list fails in the
    [except] block, where it is indexed by a string.  A dict with keys
    fails there on its first missing key.  A dict with no key at all
    passes the [try] block with empty arrays and fails on them: in the
    subtraction, or at the first indexing. *)
Definition raised_on_incomplete (info : info_arg) (e : exn) : Prop :=
  match info with
  | InfoList _ => e = TypeError
  | InfoDict d =>
      match dict_keys d with
      | [] => e = ValueError \/ e = IndexError
      | _ :: _ =>
          e = KeyError "pos_tcp" \/ e = KeyError "grasp"
          \/ e = KeyError "collisions"
      end
  end.



(** *** Batches *)

(** One sample of a batch: the record of the step and the two goals. *)
Record sample : Type := {
  s_tcp : vec3;
  s_achieved : vec3;
  s_desired : vec3;
  s_grasp : bool;
  s_collisions : bool;
  s_others : list string;
}.

Definition sample_info (s : sample) : StepInfo :=
  step_info (s_tcp s) (s_grasp s) (s_collisions s) (s_others s).

Definition sample_reward (s : sample) : R :=
  shaped_reward (s_tcp s) (s_achieved s) (s_desired s) (s_collisions s).

(** The array of shape (n, 3) that stacks one vector of each sample. *)
Definition stack (f : sample -> vec3) (l : list sample) : ndarray R :=
  A2 3 (map (fun s => vec3_list (f s)) l).

(** The record [d] with the value of its grasp flag, if it has one,
    replaced by [b]. *)
Definition with_grasp (b : bool) (d : StepInfo) : StepInfo :=
  {| pos_tcp := pos_tcp d; grasp := (fun _ => b) <$> grasp d;
     collisions := collisions d; other_keys := other_keys d |}.

Definition info_with_grasp (b : bool) (info : info_arg) : info_arg :=
  match info with
  | InfoDict d => InfoDict (with_grasp b d)
  | InfoList l => InfoList (map (with_grasp b) l)
  end.

(** What the two blocks of [compute_reward] read from [info], with the
    grasp flags replaced. *)
Definition regrasp (b : bool)
  (r : ndarray R * ndarray bool * ndarray bool)
  : ndarray R * ndarray bool * ndarray bool :=
  let '(p, g, c) := r in (p, amap (fun _ => b) g, c).

(** Every entry of an array satisfies [P]. *)
Definition all_entries {A} (P : A -> Prop) (a : ndarray A) : Prop :=
  match a with
  | A0 x => P x
  | A1 xs => Forall P xs
  | A2 _ rows => Forall (Forall P) rows
  end.

(** *** Sampling *)

Section SamplingTerms.
Context {Sim Gen : Type} `{PyBullet Sim} `{Generator Gen}.
Implicit Types self : @Grasp Sim Gen.

(** The goal [_sample_goal] returns and the generator it leaves, from
    the object size, the goal range and the generator. *)
Definition goal_draw (size : R) (low high : vec3) (g : Gen) : vec3 * Gen :=
  let '(noise, g1) := uniform low high g in
  let '(u, g2) := random g1 in
  (Vec3 (0 + vx noise) (2 / 10 + vy noise)
        (15 / 100 + size / 2 + if Rltb u (3 / 10) then 0 else vz noise), g2).

(** The same for [_sample_object]. *)
Definition object_draw (size : R) (low high : vec3) (g : Gen) : vec3 * Gen :=
  let '(noise, g1) := uniform low high g in
  (Vec3 (0 + vx noise) (- (2 / 10) + vy noise) (size / 2 + vz noise), g1).

Definition identity_quaternion : list R := [0; 0; 0; 1].

(** The generator after [n] draws. *)
Fixpoint advance (n : nat) (g : Gen) : Gen :=
  match n with
  | O => g
  | S n' => advance n' (snd (next_double g))
  end.

(** The configuration: what the constructor fixes and no method assigns. *)
Definition same_config self1 self2 : Prop :=
  reward_type self1 = reward_type self2
  /\ distance_threshold self1 = distance_threshold self2
  /\ object_size self1 = object_size self2
  /\ goal_range_low self1 = goal_range_low self2
  /\ goal_range_high self1 = goal_range_high self2
  /\ obj_range_low self1 = obj_range_low self2
  /\ obj_range_high self1 = obj_range_high self2.

(** The task a reset leaves. *)
Definition reset_state self : Grasp :=
  let gd := goal_draw (object_size self) (goal_range_low self)
              (goal_range_high self) (np_random self) in
  let od := object_draw (object_size self) (obj_range_low self)
              (obj_range_high self) (snd gd) in
  let s := set_base_pose "object" (fst od) identity_quaternion
             (set_base_pose "target" (fst gd) identity_quaternion (sim self)) in
  set_initial_height (vz (get_base_position "object" s))
    (set_sim s (set_np_random (snd od) (set_goal (fst gd)
       (set_np_random (snd gd) self)))).

End SamplingTerms.

(** ** Comparison of reals *)

Lemma Rltb_true (x y : R) : Rltb x y = true <-> x < y.
Proof. unfold Rltb. destruct (Rlt_dec x y); split; intros; try easy. Qed.

Lemma Rltb_false (x y : R) : Rltb x y = false <-> y <= x.
Proof.
  unfold Rltb. destruct (Rlt_dec x y); split; intros; try easy; lra.
Qed.

(** ** Arrays of one sample *)

Lemma norm2_diff (p q : vec3) :
  norm2 [vx p - vx q; vy p - vy q; vz p - vz q] = euclidean_distance p q.
Proof. unfold norm2, euclidean_distance; simpl. f_equal. ring. Qed.

Lemma distance_arr (p q : vec3) :
  distance (arr p) (arr q) = Ok (A0 (euclidean_distance p q)).
Proof. unfold distance; simpl. now rewrite norm2_diff. Qed.

Lemma check_position_for_grasp_arr (tcp obj : vec3) :
  check_position_for_grasp (arr tcp) (arr obj)
  = Ok (A0 (within_grasp_tolerance tcp obj)).
Proof. reflexivity. Qed.

Lemma b2r_IZR (b : bool) : IZR (Z.b2z b) = b2r b.
Proof. now destruct b. Qed.

Lemma info_batch_dict_raises (d : StepInfo) :
  dict_keys d <> [] -> info_batch (InfoDict d) = Raise TypeError.
Proof.
  unfold info_batch; cbn [iter].
  destruct (dict_keys d); [congruence | reflexivity].
Qed.

Lemma step_info_keys (tcp : vec3) (g c : bool) (others : list string) :
  dict_keys (step_info tcp g c others) <> [].
Proof. discriminate. Qed.

Lemma compute_reward_locals_scalar (tcp achieved desired : vec3) (g c : bool)
  (others : list string) :
  compute_reward_locals (arr achieved) (arr desired)
    (InfoDict (step_info tcp g c others))
  = Ok {| reach_reward := A0 (euclidean_distance tcp achieved);
          position_for_grasp := A0 (within_grasp_tolerance tcp achieved);
          grasp_reward := A0 (Z.b2z (within_grasp_tolerance tcp achieved && c));
          penalty_for_pushing :=
            A0 (Z.b2z (c && negb (within_grasp_tolerance tcp achieved)));
          obj_to_target := A0 (euclidean_distance achieved desired);
          total_reward := A0 (shaped_reward tcp achieved desired c) |}.
Proof.
  unfold compute_reward_locals.
  rewrite info_batch_dict_raises by apply step_info_keys.
  cbn [try_except info_scalar info_getitem dict_getitem step_info
       pos_tcp grasp collisions mbind result_bind].
  rewrite !distance_arr, check_position_for_grasp_arr.
  cbn. do 3 f_equal. unfold shaped_reward. rewrite !b2r_IZR.
  destruct (within_grasp_tolerance tcp achieved), c; cbn;
    rewrite !mult_IZR; lra.
Qed.

Lemma compute_reward_body_scalar (tcp achieved desired : vec3) (g c : bool)
  (others : list string) :
  compute_reward_body (arr achieved) (arr desired)
    (InfoDict (step_info tcp g c others))
  = Ok (A0 (shaped_reward tcp achieved desired c)).
Proof.
  unfold compute_reward_body. now rewrite compute_reward_locals_scalar.
Qed.

Lemma euclidean_distance_self (p : vec3) : euclidean_distance p p = 0.
Proof.
  unfold euclidean_distance.
  replace (_ + _) with 0 by ring. apply sqrt_0.
Qed.

Lemma euclidean_distance_unit_x :
  euclidean_distance (Vec3 0 0 0) (Vec3 1 0 0) = 1.
Proof.
  unfold euclidean_distance; simpl.
  replace (_ + _) with 1 by ring. apply sqrt_1.
Qed.

Lemma within_grasp_tolerance_self (p : vec3) : within_grasp_tolerance p p = true.
Proof.
  unfold within_grasp_tolerance.
  rewrite !Rminus_diag, Rabs_R0.
  rewrite !(proj2 (Rltb_true _ _)) by lra. reflexivity.
Qed.

(** ** Incomplete info bundles *)

Lemma comprehension_field_ok {A} (key : string) (field : StepInfo -> option A)
  (l : list StepInfo) :
  is_ok (comprehension (fun dd => item_getitem dd key field) (map ItemDict l))
  = forallb (fun d => bool_decide (is_Some (field d))) l.
Proof.
  induction l as [|d l IH]; [reflexivity|].
  cbn [map comprehension item_getitem forallb].
  destruct (field d) as [x|]; cbn; [|reflexivity].
  rewrite <- IH.
  now destruct (comprehension _ (map ItemDict l)).
Qed.

Lemma complete_fields (d : StepInfo) :
  complete d
  = bool_decide (is_Some (pos_tcp d)) && bool_decide (is_Some (grasp d))
    && bool_decide (is_Some (collisions d)).
Proof.
  unfold complete.
  now destruct (pos_tcp d), (grasp d), (collisions d).
Qed.

Lemma forallb_complete (l : list StepInfo) :
  forallb complete l
  = forallb (fun d => bool_decide (is_Some (pos_tcp d))) l
    && forallb (fun d => bool_decide (is_Some (grasp d))) l
    && forallb (fun d => bool_decide (is_Some (collisions d))) l.
Proof.
  induction l as [|d l IH]; [reflexivity|].
  cbn [forallb]. rewrite IH, complete_fields.
  repeat match goal with |- context [bool_decide ?P] =>
    destruct (bool_decide P) end; cbn; try reflexivity;
  repeat match goal with |- context [forallb ?f l] =>
    destruct (forallb f l) end; reflexivity.
Qed.

Lemma info_batch_list_ok (l : list StepInfo) :
  is_ok (info_batch (InfoList l)) = forallb complete l.
Proof.
  rewrite forallb_complete. unfold info_batch. cbn [iter].
  rewrite <- (comprehension_field_ok "pos_tcp"),
    <- (comprehension_field_ok "grasp"),
    <- (comprehension_field_ok "collisions").
  now repeat match goal with |- context [comprehension ?f ?l] =>
    destruct (comprehension f l) end.
Qed.

Lemma bzip_raises {A B C} (f : A -> B -> C) (xs : list A) (ys : list B)
  (e : exn) :
  bzip f xs ys = Raise e -> e = ValueError.
Proof.
  unfold bzip. destruct (length xs =? length ys)%nat; [discriminate|].
  destruct xs as [|x [|x' xs]], ys as [|y [|y' ys]]; congruence.
Qed.

Lemma bdim_raises (m n : nat) (e : exn) : bdim m n = Raise e -> e = ValueError.
Proof.
  unfold bdim.
  destruct (m =? n)%nat, (m =? 1)%nat, (n =? 1)%nat; congruence.
Qed.

Lemma comprehension_raises {A B} (f : A -> result B) (l : list A) (e : exn) :
  comprehension f l = Raise e -> exists a, f a = Raise e.
Proof.
  induction l as [|a l IH]; cbn [comprehension]; [discriminate|].
  destruct (f a) as [b|e'] eqn:Hfa; cbn.
  - destruct (comprehension f l); cbn; [discriminate|].
    intros [= ->]. now apply IH.
  - intros [= ->]. now exists a.
Qed.

Lemma distance_empty_raises (a : ndarray R) (e : exn) :
  distance (A1 []) a = Raise e -> e = ValueError.
Proof.
  unfold distance, np_sub. destruct a as [x|ys|c rows]; cbn.
  - discriminate.
  - destruct (bzip Rminus [] ys) eqn:Hb; cbn; [discriminate|].
    intros [= ->]. eapply bzip_raises, Hb.
  - destruct (bdim 0 c) eqn:Hd; cbn.
    + destruct (comprehension (bzip Rminus []) rows) eqn:Hc; cbn;
        [discriminate|].
      intros [= ->]. apply comprehension_raises in Hc as [r Hr].
      eapply bzip_raises, Hr.
    + intros [= ->]. eapply bdim_raises, Hd.
Qed.

Lemma incomplete_raises (achieved_goal desired_goal : ndarray R)
  (info : info_arg) :
  bundle_complete info = false ->
  exists e,
    compute_reward_body achieved_goal desired_goal info = Raise e
    /\ raised_on_incomplete info e.
Proof.
  unfold compute_reward_body, compute_reward_locals.
  destruct info as [d|l]; cbn [bundle_complete raised_on_incomplete];
    intros Hinc.
  - destruct d as [p g c others]. unfold complete in Hinc. cbn in Hinc.
    destruct p as [p|], g as [g|], c as [c|]; try discriminate;
      try (eexists; split; [reflexivity|]; cbn; tauto).
    destruct others as [|k others];
      [|eexists; split; [reflexivity|]; cbn; tauto].
    cbn -[distance].
    destruct (distance (A1 []) achieved_goal) eqn:Hd;
      (eexists; split; [reflexivity|]).
    + now right.
    + left. eapply distance_empty_raises, Hd.
  - rewrite <- info_batch_list_ok in Hinc.
    destruct (info_batch (InfoList l)); [discriminate|].
    eexists; split; reflexivity.
Qed.

(** ** One sample as a batch of one *)






Lemma shaped_reward_terms (tcp achieved desired : vec3) (c : bool) :
  - euclidean_distance tcp achieved
  + IZR (Z.b2z (within_grasp_tolerance tcp achieved))
  + IZR (5 * Z.b2z (within_grasp_tolerance tcp achieved && c))
  - 10 * euclidean_distance achieved desired
  - IZR (2 * Z.b2z (c && negb (within_grasp_tolerance tcp achieved)))
  = shaped_reward tcp achieved desired c.
Proof.
  unfold shaped_reward. rewrite !mult_IZR, !b2r_IZR. reflexivity.
Qed.





(** ** Batches of any size *)

Lemma comprehension_ok {A B} (f : A -> result B) (g : A -> B) (l : list A) :
  (forall a, f a = Ok (g a)) -> comprehension f l = Ok (map g l).
Proof.
  intros Hf. induction l as [|a l IH]; [reflexivity|].
  cbn [comprehension map]. now rewrite Hf, IH.
Qed.

Lemma comprehension_map {A B C} (f : B -> result C) (h : A -> B) (l : list A) :
  comprehension f (map h l) = comprehension (fun a => f (h a)) l.
Proof.
  induction l as [|a l IH]; [reflexivity|].
  cbn [comprehension map]. now rewrite IH.
Qed.

Lemma zip_with_map {A B C D} (op : B -> C -> D) (f : A -> B) (g : A -> C)
  (l : list A) :
  zip_with op (map f l) (map g l) = map (fun a => op (f a) (g a)) l.
Proof.
  induction l as [|a l IH]; [reflexivity|]. cbn. now rewrite IH.
Qed.

Lemma bzip_map {A B C D} (op : B -> C -> D) (f : A -> B) (g : A -> C)
  (l : list A) :
  bzip op (map f l) (map g l) = Ok (map (fun a => op (f a) (g a)) l).
Proof.
  unfold bzip. rewrite !length_map, Nat.eqb_refl. now rewrite zip_with_map.
Qed.

Lemma broadcast2_map {A B C D} (op : B -> C -> D) (f : A -> B) (g : A -> C)
  (l : list A) :
  broadcast2 op (A1 (map f l)) (A1 (map g l))
  = Ok (A1 (map (fun a => op (f a) (g a)) l)).
Proof. cbn. now rewrite bzip_map. Qed.

Lemma broadcast2_map_scalar {A B C D} (op : B -> C -> D) (f : A -> B) (y : C)
  (l : list A) :
  broadcast2 op (A1 (map f l)) (A0 y) = Ok (A1 (map (fun a => op (f a) y) l)).
Proof. cbn. now rewrite map_map. Qed.

Lemma amap_map {A B C} (h : B -> C) (f : A -> B) (l : list A) :
  amap h (A1 (map f l)) = A1 (map (fun a => h (f a)) l).
Proof. cbn. now rewrite map_map. Qed.

Lemma transpose_stack (f : sample -> vec3) (l : list sample) :
  transpose 3 (map (fun s => vec3_list (f s)) l)
  = [map (fun s => vx (f s)) l; map (fun s => vy (f s)) l;
     map (fun s => vz (f s)) l].
Proof.
  induction l as [|s l IH]; [reflexivity|].
  cbn [map transpose]. now rewrite IH.
Qed.

Lemma distance_stack (f g : sample -> vec3) (l : list sample) :
  distance (stack f l) (stack g l)
  = Ok (A1 (map (fun s => euclidean_distance (f s) (g s)) l)).
Proof.
  unfold distance, stack, np_sub.
  cbn [broadcast2 bdim Nat.eqb mbind result_bind].
  rewrite bzip_map. cbn [mbind result_bind].
  rewrite comprehension_map.
  rewrite (comprehension_ok _
    (fun s => [vx (f s) - vx (g s); vy (f s) - vy (g s); vz (f s) - vz (g s)]))
    by reflexivity.
  cbn [mbind result_bind norm_last_axis]. rewrite map_map.
  do 2 f_equal. apply map_ext. intros s. apply norm2_diff.
Qed.

Lemma check_position_for_grasp_stack (f g : sample -> vec3) (l : list sample) :
  check_position_for_grasp (stack f l) (stack g l)
  = Ok (A1 (map (fun s => within_grasp_tolerance (f s) (g s)) l)).
Proof.
  unfold check_position_for_grasp, stack. cbn [np_T].
  rewrite !transpose_stack.
  cbn [getitem lookup list_lookup mbind result_bind].
  unfold np_sub, np_and, np_lt, np_abs.
  repeat (rewrite ?broadcast2_map, ?amap_map; cbn [mbind result_bind]).
  reflexivity.
Qed.

Lemma info_batch_samples (s : sample) (l : list sample) :
  info_batch (InfoList (map sample_info (s :: l)))
  = Ok (stack s_tcp (s :: l), A1 (map s_grasp (s :: l)),
        A1 (map s_collisions (s :: l))).
Proof.
  unfold info_batch. cbn [iter]. rewrite !comprehension_map.
  rewrite
    (comprehension_ok
       (fun a => item_getitem (ItemDict (sample_info a)) "pos_tcp" pos_tcp)
       s_tcp),
    (comprehension_ok
       (fun a => item_getitem (ItemDict (sample_info a)) "grasp" grasp)
       s_grasp),
    (comprehension_ok
       (fun a => item_getitem (ItemDict (sample_info a)) "collisions" collisions)
       s_collisions) by reflexivity.
  cbn [mbind result_bind]. unfold stack. cbn [map np_array_vecs].
  now rewrite map_map.
Qed.

Lemma compute_reward_body_stack (s : sample) (l : list sample) :
  compute_reward_body (stack s_achieved (s :: l)) (stack s_desired (s :: l))
    (InfoList (map sample_info (s :: l)))
  = Ok (A1 (map sample_reward (s :: l))).
Proof.
  unfold compute_reward_body, compute_reward_locals.
  rewrite info_batch_samples. cbn [try_except mbind result_bind].
  rewrite !distance_stack, check_position_for_grasp_stack.
  cbn [mbind result_bind].
  unfold np_and, np_add, np_sub, np_neg, np_scale, np_scale_int, np_invert,
    astype_int, promote, astype_float32.
  repeat (rewrite ?broadcast2_map, ?amap_map;
          cbn [mbind result_bind fmap result_fmap total_reward]).
  do 2 f_equal. apply map_ext. intros x. apply shaped_reward_terms.
Qed.

(** ** Sampling and reset, written out *)

Ltac run_method :=
  cbv beta iota delta [reset_samples reset _sample_goal _sample_object get_obs
    get_achieved_goal get_desired_goal is_success compute_reward
    sim_call sim_query assign read draw lift raise
    mbind method_bind mret method_ret fst snd].

Ltac step_bind :=
  cbv beta iota delta [mbind method_bind mret method_ret assign sim_call
    sim_query read lift raise].

Section Sampling.
Context {Sim Gen : Type} `{PyBullet Sim} `{Generator Gen}.
Implicit Types self : @Grasp Sim Gen.

Lemma _sample_goal_run self :
  _sample_goal self
  = (Ok (fst (goal_draw (object_size self) (goal_range_low self)
                (goal_range_high self) (np_random self))),
     set_np_random
       (snd (goal_draw (object_size self) (goal_range_low self)
               (goal_range_high self) (np_random self))) self).
Proof.
  run_method. unfold goal_draw.
  destruct (uniform _ _ _) as [noise g1].
  cbn [set_np_random np_random].
  destruct (random g1) as [u g2]. cbn.
  now destruct (Rltb u (3 / 10)).
Qed.

Lemma _sample_object_run self :
  _sample_object self
  = (Ok (fst (object_draw (object_size self) (obj_range_low self)
                (obj_range_high self) (np_random self))),
     set_np_random
       (snd (object_draw (object_size self) (obj_range_low self)
               (obj_range_high self) (np_random self))) self).
Proof.
  run_method. unfold object_draw.
  now destruct (uniform _ _ _) as [noise g1].
Qed.

Lemma same_config_refl self : same_config self self.
Proof. now repeat split. Qed.

Lemma same_config_trans self1 self2 self3 :
  same_config self1 self2 -> same_config self2 self3 -> same_config self1 self3.
Proof. unfold same_config. intuition congruence. Qed.

Lemma same_config_sym self1 self2 :
  same_config self1 self2 -> same_config self2 self1.
Proof. unfold same_config. intuition congruence. Qed.

Lemma reset_run self : reset self = (Ok tt, reset_state self).
Proof.
  unfold reset. step_bind.
  rewrite _sample_goal_run. step_bind.
  rewrite _sample_object_run. reflexivity.
Qed.

Lemma reset_samples_run self :
  reset_samples self
  = (Ok (fst (goal_draw (object_size self) (goal_range_low self)
                (goal_range_high self) (np_random self)),
         fst (object_draw (object_size self) (obj_range_low self)
                (obj_range_high self)
                (snd (goal_draw (object_size self) (goal_range_low self)
                        (goal_range_high self) (np_random self))))),
     set_np_random
       (snd (object_draw (object_size self) (obj_range_low self)
               (obj_range_high self)
               (snd (goal_draw (object_size self) (goal_range_low self)
                       (goal_range_high self) (np_random self)))))
       (set_goal
          (fst (goal_draw (object_size self) (goal_range_low self)
                  (goal_range_high self) (np_random self)))
          (set_np_random
             (snd (goal_draw (object_size self) (goal_range_low self)
                     (goal_range_high self) (np_random self))) self))).
Proof.
  unfold reset_samples. step_bind.
  rewrite _sample_goal_run. step_bind.
  rewrite _sample_object_run. reflexivity.
Qed.

Lemma reset_same_config self : same_config self (snd (reset self)).
Proof. rewrite reset_run. now repeat split. Qed.

(** A query leaves every field but the simulator handle as it was, and
    the simulator state too. *)
Lemma after_query_id (q : query) self : after_query q self = self.
Proof.
  destruct q; cbn [after_query]; run_method; try reflexivity.
  - now destruct (goal self).
  - now destruct (distance achieved_goal desired_goal).
Qed.

Lemma run_same_config (calls : list call) self :
  same_config self (run calls self).
Proof.
  revert self. induction calls as [|c calls IH]; intros self.
  - apply same_config_refl.
  - cbn [run foldl]. eapply same_config_trans; [|apply IH].
    destruct c as [|q]; cbn [after].
    + apply reset_same_config.
    + rewrite after_query_id. apply same_config_refl.
Qed.

Lemma run_queries (qs : list query) self : run (map Query qs) self = self.
Proof.
  induction qs as [|q qs IH]; [reflexivity|].
  cbn [map run foldl after]. rewrite after_query_id. exact IH.
Qed.

Lemma sample_sequence_deterministic (n : nat) self1 self2 :
  same_config self1 self2 -> np_random self1 = np_random self2 ->
  sample_sequence n self1 = sample_sequence n self2.
Proof.
  revert self1 self2. induction n as [|n IH]; intros self1 self2 Hc Hg;
    [reflexivity|].
  cbn [sample_sequence].
  destruct Hc as (Hrt & Hth & Hsz & Hgl & Hgh & Hol & Hoh).
  rewrite !reset_samples_run, !reset_run. cbn [fst snd].
  rewrite Hsz, Hgl, Hgh, Hol, Hoh, Hg. f_equal.
  apply IH.
  - unfold reset_state. now repeat split.
  - unfold reset_state. cbn. now rewrite Hsz, Hgl, Hgh, Hol, Hoh, Hg.
Qed.

Lemma uniform_z (low high : vec3) (g : Gen) :
  vz low = 0 -> vz high = 0 -> vz (fst (uniform low high g)) = 0.
Proof.
  intros Hl Hh. unfold uniform.
  destruct (next_double g) as [u0 g0], (next_double g0) as [u1 g1],
    (next_double g1) as [u2 g2].
  cbn. rewrite Hl, Hh. ring.
Qed.

Lemma object_draw_z (size : R) (low high : vec3) (g : Gen) :
  vz low = 0 -> vz high = 0 ->
  vz (fst (object_draw size low high g)) = size / 2.
Proof.
  intros Hl Hh. unfold object_draw.
  pose proof (uniform_z low high g Hl Hh) as Hz.
  destruct (uniform low high g) as [noise g1]. cbn in *. rewrite Hz. ring.
Qed.

Lemma init_same_config (sim1 sim2 : Sim) (gen1 gen2 : Gen) (rt : string)
  (thr gxy gz oxy : R) :
  same_config (__init__ sim1 gen1 rt thr gxy gz oxy)
    (__init__ sim2 gen2 rt thr gxy gz oxy).
Proof. now repeat split. Qed.

Lemma init_np_random (sim0 : Sim) (gen : Gen) (rt : string)
  (thr gxy gz oxy : R) :
  np_random (__init__ sim0 gen rt thr gxy gz oxy) = gen.
Proof. reflexivity. Qed.

Lemma init_object_size (sim0 : Sim) (gen : Gen) (rt : string)
  (thr gxy gz oxy : R) :
  object_size (__init__ sim0 gen rt thr gxy gz oxy) = 4 / 100.
Proof. reflexivity. Qed.

Lemma init_fields (sim0 : Sim) (gen : Gen) (rt : string) (thr gxy gz oxy : R) :
  __init__ sim0 gen rt thr gxy gz oxy
  = {| sim := sim (__init__ sim0 gen rt thr gxy gz oxy);
       np_random := gen; goal := None; initial_height := 0;
       reward_type := rt; distance_threshold := thr; object_size := 4 / 100;
       goal_range_low := Vec3 (- gxy / 2) (- gxy / 2) 0;
       goal_range_high := Vec3 (gxy / 2) (gxy / 2) gz;
       obj_range_low := Vec3 (- oxy / 2) (- oxy / 2) 0;
       obj_range_high := Vec3 (oxy / 2) (oxy / 2) 0 |}.
Proof. reflexivity. Qed.

Lemma init_goal (sim0 : Sim) (gen : Gen) (rt : string) (thr gxy gz oxy : R) :
  goal (__init__ sim0 gen rt thr gxy gz oxy) = None.
Proof. reflexivity. Qed.

Lemma get_desired_goal_run self :
  get_desired_goal self
  = (match goal self with
     | None => Raise (RuntimeError "No goal yet, call reset() first")
     | Some g => Ok (arr g)
     end, self).
Proof. run_method. now destruct (goal self). Qed.
Lemma uniform_bounds (low high : vec3) (g : Gen) :
  (forall g' : Gen, 0 <= fst (next_double g') < 1) ->
  vx low <= vx high -> vy low <= vy high -> vz low <= vz high ->
  let noise := fst (uniform low high g) in
  vx low <= vx noise <= vx high /\ vy low <= vy noise <= vy high
  /\ vz low <= vz noise <= vz high.
Proof.
  intros Hu Hx Hy Hz. unfold uniform.
  pose proof (Hu g) as Hu0.
  destruct (next_double g) as [u0 g0].
  pose proof (Hu g0) as Hu1.
  destruct (next_double g0) as [u1 g1].
  pose proof (Hu g1) as Hu2.
  destruct (next_double g1) as [u2 g2].
  cbn in *. repeat split; nra.
Qed.

Lemma goal_draw_bounds (size : R) (low high : vec3) (g : Gen) :
  (forall g' : Gen, 0 <= fst (next_double g') < 1) ->
  vx low <= vx high -> vy low <= vy high -> vz low <= 0 <= vz high ->
  let goal := fst (goal_draw size low high g) in
  vx low <= vx goal <= vx high
  /\ 2 / 10 + vy low <= vy goal <= 2 / 10 + vy high
  /\ 15 / 100 + size / 2 + vz low <= vz goal <= 15 / 100 + size / 2 + vz high.
Proof.
  intros Hu Hx Hy Hz. unfold goal_draw.
  assert (Hz' : vz low <= vz high) by lra.
  pose proof (uniform_bounds low high g Hu Hx Hy Hz') as Hb.
  destruct (uniform low high g) as [noise g1].
  destruct (random g1) as [u g2]. cbn in *.
  destruct (Rltb u (3 / 10)); repeat split; lra.
Qed.
End Sampling.

Section Properties.
Context {Sim Gen : Type} `{PyBullet Sim} `{Generator Gen}.
Implicit Types self : @Grasp Sim Gen.

(** C1: on an achieved-goal vector, a desired-goal vector and a record
    that carries every field, [compute_reward] returns
    [- reach_reward + position_for_grasp + 5 * grasp_reward
     - 10 * obj_to_target - 2 * penalty_for_pushing], where reach_reward
    and obj_to_target are euclidean distances, position_for_grasp is the
    tolerance test as 0 or 1, grasp_reward is 1 when the test and the
    collision flag both hold and penalty_for_pushing is 1 when the flag
    holds and the test does not; it leaves the task as it was.  On a batch
    of such records and the stacked goals it returns that value for each
    sample.  At pos_tcp = (0,0,0), achieved = (0,0,0), desired = (1,0,0)
    and collisions = true the reward is -4. *)
Theorem compute_reward_formula self :
  (forall (tcp achieved desired : vec3) (g c : bool) (others : list string),
      compute_reward (arr achieved) (arr desired)
        (InfoDict (step_info tcp g c others)) self
      = (Ok (A0 (- euclidean_distance tcp achieved
                 + b2r (within_grasp_tolerance tcp achieved)
                 + 5 * b2r (within_grasp_tolerance tcp achieved && c)
                 - 10 * euclidean_distance achieved desired
                 - 2 * b2r (c && negb (within_grasp_tolerance tcp achieved)))),
         self))
  /\ (forall (s : sample) (l : list sample),
         compute_reward (stack s_achieved (s :: l)) (stack s_desired (s :: l))
           (InfoList (map sample_info (s :: l))) self
         = (Ok (A1 (map (fun s =>
                      - euclidean_distance (s_tcp s) (s_achieved s)
                      + b2r (within_grasp_tolerance (s_tcp s) (s_achieved s))
                      + 5 * b2r (within_grasp_tolerance (s_tcp s) (s_achieved s)
                                 && s_collisions s)
                      - 10 * euclidean_distance (s_achieved s) (s_desired s)
                      - 2 * b2r (s_collisions s
                                 && negb (within_grasp_tolerance (s_tcp s)
                                            (s_achieved s))))
                    (s :: l))),
            self))
  /\ (forall (g : bool) (others : list string),
         compute_reward (arr (Vec3 0 0 0)) (arr (Vec3 1 0 0))
           (InfoDict (step_info (Vec3 0 0 0) g true others)) self
         = (Ok (A0 (-4)), self)).
Proof.
  repeat apply conj; intros; unfold compute_reward, lift.
  - now rewrite compute_reward_body_scalar.
  - now rewrite compute_reward_body_stack.
  - rewrite compute_reward_body_scalar. unfold shaped_reward.
    rewrite euclidean_distance_self, euclidean_distance_unit_x,
      within_grasp_tolerance_self.
    cbn. do 3 f_equal. lra.
Qed.

(** C2: [is_success] answers true exactly when the euclidean distance of
    the achieved and the desired goal is below the threshold; at a
    distance equal to the threshold it answers false. *)
Theorem is_success_strict self (achieved desired : vec3) :
  exists b : bool,
    is_success (arr achieved) (arr desired) self = (Ok (A0 b), self)
    /\ (b = true
        <-> euclidean_distance achieved desired < distance_threshold self)
    /\ (euclidean_distance achieved desired = distance_threshold self
        -> b = false).
Proof.
  exists (Rltb (euclidean_distance achieved desired) (distance_threshold self)).
  split; [|split].
  - unfold is_success, lift, read.
    cbn [mbind method_bind mret method_ret]. now rewrite distance_arr.
  - apply Rltb_true.
  - intros ->. apply Rltb_false. lra.
Qed.

(** C3: the grasp-position test holds exactly when the gripper tip is
    within 0.02 of the object on x and on y and within 0.01 on z; the
    value [compute_reward] gives it is the same whatever the collision
    flag of the record (and its grasp flag and other keys). *)
Theorem check_position_for_grasp_tolerances :
  (forall tcp obj : vec3,
      exists b : bool,
        check_position_for_grasp (arr tcp) (arr obj) = Ok (A0 b)
        /\ (b = true <->
            Rabs (vx tcp - vx obj) < 2 / 100
            /\ Rabs (vy tcp - vy obj) < 2 / 100
            /\ Rabs (vz tcp - vz obj) < 1 / 100))
  /\ (forall (tcp achieved desired : vec3) (g1 c1 g2 c2 : bool)
        (others1 others2 : list string),
         position_for_grasp <$>
           compute_reward_locals (arr achieved) (arr desired)
             (InfoDict (step_info tcp g1 c1 others1))
         = position_for_grasp <$>
             compute_reward_locals (arr achieved) (arr desired)
               (InfoDict (step_info tcp g2 c2 others2))).
Proof.
  split.
  - intros tcp obj. exists (within_grasp_tolerance tcp obj).
    split; [apply check_position_for_grasp_arr|].
    unfold within_grasp_tolerance.
    rewrite !andb_true_iff, !Rltb_true. tauto.
  - intros. now rewrite !compute_reward_locals_scalar.
Qed.

(** C4: on a task no reset has run on, whatever was queried since its
    construction, [get_desired_goal] raises the error "No goal yet, call
    reset() first" and returns no vector; after a reset, and whatever is
    queried after it, it returns the goal that reset sampled, as an array
    of its own. *)
Theorem get_desired_goal_needs_reset (sim0 : Sim) (gen : Gen) (rt : string)
  (thr gxy gz oxy : R) (qs : list query) self :
  (let fresh := run (map Query qs) (__init__ sim0 gen rt thr gxy gz oxy) in
   get_desired_goal fresh
   = (Raise (RuntimeError "No goal yet, call reset() first"), fresh))
  /\ (let self' := run (map Query qs) (snd (reset self)) in
      exists (g p : vec3) self1,
        reset_samples self = (Ok (g, p), self1)
        /\ get_desired_goal self' = (Ok (arr g), self')).
Proof.
  cbn zeta. rewrite !run_queries, !get_desired_goal_run. split.
  - now rewrite init_goal.
  - rewrite reset_samples_run, reset_run.
    do 3 eexists. split; reflexivity.
Qed.


(** C6: on an info bundle that lacks a field the task reads, one record
    or a sequence with such a record in it, [compute_reward] raises to
    its caller, whatever the goal arrays are, and returns no reward.  The
    exception is the one [raised_on_incomplete] names: the KeyError of a
    missing key for a record, a TypeError for a sequence, a ValueError or
    an IndexError for a record with no key at all. *)
Theorem compute_reward_incomplete_raises self
  (achieved_goal desired_goal : ndarray R) (info : info_arg) :
  bundle_complete info = false ->
  exists e,
    compute_reward achieved_goal desired_goal info self = (Raise e, self)
    /\ raised_on_incomplete info e.
Proof.
  intros Hinc. unfold compute_reward, lift.
  destruct (incomplete_raises achieved_goal desired_goal info Hinc)
    as (e & -> & He).
  now exists e.
Qed.

(** C7: on a task built by the constructor with any [obj_xy_range], after
    any calls, the object position a reset samples has its z-coordinate
    equal to half the object size, 0.02: the z-components of the object
    range are both 0.  That position is the one reset hands to the
    simulator. *)
Theorem sampled_object_on_table (sim0 : Sim) (gen : Gen) (rt : string)
  (thr gxy gz oxy : R) (calls : list call) :
  let self := run calls (__init__ sim0 gen rt thr gxy gz oxy) in
  vz (obj_range_low self) = 0 /\ vz (obj_range_high self) = 0
  /\ object_size self / 2 = 2 / 100
  /\ (exists (p : vec3) self1,
         _sample_object self = (Ok p, self1) /\ vz p = object_size self / 2)
  /\ (exists (g p : vec3) self1,
         reset_samples self = (Ok (g, p), self1)
         /\ vz p = object_size self / 2
         /\ sim (snd (reset self))
            = set_base_pose "object" p identity_quaternion
                (set_base_pose "target" g identity_quaternion (sim self))).
Proof.
  cbn zeta.
  set (self0 := __init__ sim0 gen rt thr gxy gz oxy).
  destruct (run_same_config calls self0)
    as (_ & _ & Hsz & _ & _ & Hol & Hoh).
  set (self := run calls self0) in *.
  assert (Hl : vz (obj_range_low self) = 0) by now rewrite <- Hol.
  assert (Hh : vz (obj_range_high self) = 0) by now rewrite <- Hoh.
  assert (Hs : object_size self / 2 = 2 / 100)
    by (rewrite <- Hsz; unfold self0; rewrite init_object_size; lra).
  repeat split; try assumption.
  - rewrite _sample_object_run. do 2 eexists. split; [reflexivity|].
    now apply object_draw_z.
  - rewrite reset_samples_run, reset_run. do 3 eexists.
    split; [reflexivity|]. split; [now apply object_draw_z|reflexivity].
Qed.

(** C8: [reset] returns normally and sets the goal and the initial height
    together: the goal is the sampled one, the simulator gets the target
    at the goal and the object at the sampled position, both with the
    identity quaternion, and the initial height is the z-coordinate the
    simulator then reports for the object.  No other exposed operation
    changes the task, so the goal and the initial height stay as reset
    left them through any sequence of such calls. *)
Theorem reset_sets_goal_and_height self :
  (exists (g p : vec3) self1,
      reset_samples self = (Ok (g, p), self1)
      /\ fst (reset self) = Ok tt
      /\ goal (snd (reset self)) = Some g
      /\ sim (snd (reset self))
         = set_base_pose "object" p identity_quaternion
             (set_base_pose "target" g identity_quaternion (sim self))
      /\ initial_height (snd (reset self))
         = vz (get_base_position "object" (sim (snd (reset self)))))
  /\ snd (get_obs self) = self
  /\ snd (get_achieved_goal self) = self
  /\ snd (get_desired_goal self) = self
  /\ (forall a d, snd (is_success a d self) = self)
  /\ (forall a d info, snd (compute_reward a d info self) = self)
  /\ (forall qs : list query,
         goal (run (map Query qs) self) = goal self
         /\ initial_height (run (map Query qs) self) = initial_height self).
Proof.
  repeat apply conj.
  - rewrite reset_samples_run, reset_run. do 3 eexists.
    repeat split; reflexivity.
  - apply (after_query_id GetObs).
  - apply (after_query_id GetAchievedGoal).
  - apply (after_query_id GetDesiredGoal).
  - intros a d. apply (after_query_id (IsSuccess a d)).
  - intros a d info. apply (after_query_id (ComputeReward a d info)).
  - intros qs. now rewrite run_queries.
Qed.

(** C9: two tasks built with the same configuration and the same
    generator, on whatever simulators, sample the same goals and object
    positions over any number of resets; and a sampled goal is the base
    point (0, 0.2, 0.15 + half the object size) plus the uniform draw
    from the goal range, the z-component of the draw replaced by 0
    exactly when the generator's next double is below 0.3. *)
Theorem sampling_deterministic (sim1 sim2 : Sim) (gen : Gen) (rt : string)
  (thr gxy gz oxy : R) (n : nat) self :
  sample_sequence n (__init__ sim1 gen rt thr gxy gz oxy)
  = sample_sequence n (__init__ sim2 gen rt thr gxy gz oxy)
  /\ (exists (noise : vec3) (g1 : Gen) (u : R) (g2 : Gen),
         uniform (goal_range_low self) (goal_range_high self) (np_random self)
         = (noise, g1)
         /\ random g1 = (u, g2)
         /\ _sample_goal self
            = (Ok (Vec3 (0 + vx noise) (2 / 10 + vy noise)
                     (15 / 100 + object_size self / 2
                      + if Rltb u (3 / 10) then 0 else vz noise)),
               set_np_random g2 self)).
Proof.
  split.
  - apply sample_sequence_deterministic.
    + apply init_same_config.
    + now rewrite !init_np_random.
  - rewrite _sample_goal_run. unfold goal_draw.
    destruct (uniform _ _ _) as [noise g1].
    destruct (random g1) as [u g2] eqn:Hu.
    exists noise, g1, u, g2. now rewrite Hu.
Qed.

(** C10: [compute_reward] does not look at the reward mode.  Two tasks
    that differ in [reward_type] alone return the same reward on every
    input; so do a task built with the sparse default and one built
    dense, after any calls; and under either mode the reward of a
    complete record is the dense, shaped one. *)
Theorem compute_reward_ignores_reward_type :
  (forall self (t1 t2 : string) (achieved_goal desired_goal : ndarray R)
      (info : info_arg),
      fst (compute_reward achieved_goal desired_goal info
             (set_reward_type t1 self))
      = fst (compute_reward achieved_goal desired_goal info
               (set_reward_type t2 self)))
  /\ (forall (sim0 : Sim) (gen : Gen) (thr gxy gz oxy : R) (calls : list call)
         (achieved_goal desired_goal : ndarray R) (info : info_arg),
         fst (compute_reward achieved_goal desired_goal info
                (run calls (__init__ sim0 gen "sparse" thr gxy gz oxy)))
         = fst (compute_reward achieved_goal desired_goal info
                  (run calls (__init__ sim0 gen "dense" thr gxy gz oxy))))
  /\ (forall self (t : string) (tcp achieved desired : vec3) (g c : bool)
         (others : list string),
         fst (compute_reward (arr achieved) (arr desired)
                (InfoDict (step_info tcp g c others)) (set_reward_type t self))
         = Ok (A0 (shaped_reward tcp achieved desired c))).
Proof.
  repeat apply conj; intros; unfold compute_reward, lift; cbn [fst];
    try reflexivity.
  apply compute_reward_body_scalar.
Qed.

(** X1: with a generator whose doubles lie in [0, 1), on a task built
    with non-negative goal ranges, a sampled goal lies in the configured
    box around the base point: x within goal_xy_range / 2 of 0, y within
    goal_xy_range / 2 of 0.2, z between 0.17 and 0.17 + goal_z_range. *)
Theorem sampled_goal_in_range (sim0 : Sim) (gen : Gen) (rt : string)
  (thr gxy gz oxy : R) (calls : list call) :
  (forall g : Gen, 0 <= fst (next_double g) < 1) ->
  0 <= gxy -> 0 <= gz ->
  let self := run calls (__init__ sim0 gen rt thr gxy gz oxy) in
  exists (g : vec3) self1,
    _sample_goal self = (Ok g, self1)
    /\ - (gxy / 2) <= vx g <= gxy / 2
    /\ 2 / 10 - gxy / 2 <= vy g <= 2 / 10 + gxy / 2
    /\ 17 / 100 <= vz g <= 17 / 100 + gz.
Proof.
  intros Hu Hxy Hz. cbn zeta.
  set (self0 := __init__ sim0 gen rt thr gxy gz oxy).
  destruct (run_same_config calls self0)
    as (_ & _ & Hsz & Hgl & Hgh & _ & _).
  set (self := run calls self0) in *.
  assert (Hsz' : object_size self = 4 / 100) by now rewrite <- Hsz.
  assert (Hgl' : goal_range_low self = Vec3 (- gxy / 2) (- gxy / 2) 0)
    by now rewrite <- Hgl.
  assert (Hgh' : goal_range_high self = Vec3 (gxy / 2) (gxy / 2) gz)
    by now rewrite <- Hgh.
  rewrite _sample_goal_run, Hsz', Hgl', Hgh'.
  do 2 eexists. split; [reflexivity|].
  destruct (goal_draw_bounds (4 / 100)
              (Vec3 (- gxy / 2) (- gxy / 2) 0) (Vec3 (gxy / 2) (gxy / 2) gz)
              (np_random self) Hu) as (Hbx & Hby & Hbz);
    cbn [vx vy vz] in *; lra.
Qed.

(** X2: on a simulator that reports for a body the position it was last
    given, the initial height a reset records is half the object size,
    0.02, on a task built by the constructor, after any calls. *)
Theorem initial_height_half_size (sim0 : Sim) (gen : Gen) (rt : string)
  (thr gxy gz oxy : R) (calls : list call) :
  (forall (s : Sim) (body : string) (p : vec3) (q : list R),
      get_base_position body (set_base_pose body p q s) = p) ->
  initial_height
    (snd (reset (run calls (__init__ sim0 gen rt thr gxy gz oxy))))
  = 2 / 100.
Proof.
  intros Hsim.
  set (self0 := __init__ sim0 gen rt thr gxy gz oxy).
  destruct (run_same_config calls self0)
    as (_ & _ & Hsz & _ & _ & Hol & Hoh).
  set (self := run calls self0) in *.
  assert (Hsz' : object_size self = 4 / 100) by now rewrite <- Hsz.
  assert (Hl : vz (obj_range_low self) = 0) by now rewrite <- Hol.
  assert (Hh : vz (obj_range_high self) = 0) by now rewrite <- Hoh.
  rewrite reset_run. unfold reset_state.
  cbn [snd initial_height set_initial_height]. rewrite Hsim.
  rewrite (object_draw_z _ _ _ _ Hl Hh), Hsz'. lra.
Qed.
End Properties.

(** C6, at a record without the grasp flag. *)
Lemma compute_reward_incomplete_raises_witness :
  bundle_complete
    (InfoDict {| pos_tcp := Some (Vec3 0 0 0); grasp := None;
                 collisions := Some true; other_keys := [] |}) = false
  /\ exists e,
      compute_reward (arr (Vec3 0 0 0)) (arr (Vec3 1 0 0))
        (InfoDict {| pos_tcp := Some (Vec3 0 0 0); grasp := None;
                     collisions := Some true; other_keys := [] |})
        (default_task [])
      = (Raise e, default_task [])
      /\ raised_on_incomplete
           (InfoDict {| pos_tcp := Some (Vec3 0 0 0); grasp := None;
                        collisions := Some true; other_keys := [] |}) e.
Proof.
  split; [reflexivity|].
  apply (compute_reward_incomplete_raises (default_task [])); reflexivity.
Defined.

(** ** Worked examples on the scripted collaborators *)

(** A generator that always draws one half. *)
#[export] Instance half_gen : Generator unit := {
  next_double _ := (1 / 2, tt);
}.

Lemma sqrt_sqr_pos (x : R) : 0 <= x -> sqrt (0 * 0 + 0 * 0 + x * x) = x.
Proof.
  intros Hx. replace (0 * 0 + 0 * 0 + x * x) with (x * x) by ring.
  now apply sqrt_square.
Qed.

(** The success examples of the specification, threshold 0.05: a goal
    0.04 away is reached, a goal 0.06 away is not. *)
Example is_success_examples :
  let task := default_task [] in
  is_success (arr (Vec3 0 0 0)) (arr (Vec3 0 0 (4 / 100))) task
  = (Ok (A0 true), task)
  /\ is_success (arr (Vec3 0 0 0)) (arr (Vec3 0 0 (6 / 100))) task
     = (Ok (A0 false), task).
Proof.
  cbn zeta. unfold is_success. rewrite !distance_arr. step_bind.
  unfold euclidean_distance, np_lt; cbn [vx vy vz amap].
  replace (0 - 0) with 0 by ring.
  replace ((0 - 4 / 100) * (0 - 4 / 100)) with (4 / 100 * (4 / 100)) by ring.
  replace ((0 - 6 / 100) * (0 - 6 / 100)) with (6 / 100 * (6 / 100)) by ring.
  rewrite !sqrt_sqr_pos by lra.
  change (distance_threshold (default_task [])) with (5 / 100).
  rewrite (proj2 (Rltb_true (4 / 100) (5 / 100))) by lra.
  rewrite (proj2 (Rltb_false (6 / 100) (5 / 100))) by lra.
  split; reflexivity.
Qed.

(** Before any reset the default task has no goal to give. *)
Example get_desired_goal_fresh :
  fst (get_desired_goal (default_task []))
  = Raise (RuntimeError "No goal yet, call reset() first").
Proof. reflexivity. Qed.

(** An empty batch is rejected: arrays of shape (0,) and (0, 3) do not
    broadcast. *)
Example compute_reward_empty_batch :
  compute_reward_body (stack s_achieved []) (stack s_desired []) (InfoList [])
  = Raise ValueError.
Proof. reflexivity. Qed.

(** A reset of the default task on the script 0.5, 0.5, 0.5, 0.1 for the
    goal and 0, 1, 0.5 for the object: the goal is the base point, the
    object lies at (-0.05, -0.15, 0.02), the initial height is 0.02. *)
Example reset_default_task :
  let task := snd (reset (default_task
                     [1 / 2; 1 / 2; 1 / 2; 1 / 10; 0; 1; 1 / 2])) in
  (exists g, goal task = Some g
             /\ vx g = 0 /\ vy g = 2 / 10 /\ vz g = 17 / 100)
  /\ (let p := get_base_position "object" (sim task) in
      vx p = - (5 / 100) /\ vy p = - (15 / 100) /\ vz p = 2 / 100)
  /\ initial_height task = 2 / 100
  /\ np_random task = [].
Proof.
  cbn zeta. rewrite reset_run.
  unfold default_task. rewrite init_fields.
  unfold reset_state, goal_draw, object_draw, uniform, random.
  cbn. rewrite (proj2 (Rltb_true (1 / 10) (3 / 10))) by lra.
  repeat apply conj; try lra; try reflexivity.
  eexists; split; [reflexivity|]. cbn. repeat split; lra.
Qed.

(** X1, on the generator that always draws one half. *)
Lemma sampled_goal_in_range_witness :
  (forall g : unit, 0 <= fst (next_double g) < 1)
  /\ 0 <= 1 / 10 /\ 0 <= 0
  /\ exists (g : vec3) self1,
      _sample_goal (__init__ ([] : list (string * vec3)) tt "sparse"
                      (5 / 100) (1 / 10) 0 (1 / 10))
      = (Ok g, self1)
      /\ - (1 / 10 / 2) <= vx g <= 1 / 10 / 2
      /\ 2 / 10 - 1 / 10 / 2 <= vy g <= 2 / 10 + 1 / 10 / 2
      /\ 17 / 100 <= vz g <= 17 / 100 + 0.
Proof.
  assert (Hu : forall g : unit, 0 <= fst (next_double g) < 1)
    by (intros []; cbn; lra).
  assert (Hxy : 0 <= 1 / 10) by lra.
  assert (Hz : 0 <= 0) by lra.
  repeat apply conj; try assumption.
  exact (sampled_goal_in_range ([] : list (string * vec3)) tt "sparse"
           (5 / 100) (1 / 10) 0 (1 / 10) [] Hu Hxy Hz).
Defined.

Lemma last_position_set (s : list (string * vec3)) (body : string)
  (p : vec3) (q : list R) :
  get_base_position body (set_base_pose body p q s) = p.
Proof. cbn. now rewrite String.eqb_refl. Qed.

(** X2, on the scripted simulator. *)
Lemma initial_height_half_size_witness :
  (forall (s : list (string * vec3)) (body : string) (p : vec3) (q : list R),
      get_base_position body (set_base_pose body p q s) = p)
  /\ initial_height (snd (reset (default_task []))) = 2 / 100.
Proof.
  split; [exact last_position_set|].
  exact (initial_height_half_size [] [] "sparse" (5 / 100) (1 / 10) 0
           (1 / 10) [] last_position_set).
Defined.

(** ** The geometry of the reward terms *)

Lemma euclidean_distance_nonneg (p q : vec3) : 0 <= euclidean_distance p q.
Proof. apply sqrt_pos. Qed.

Lemma euclidean_distance_sym (p q : vec3) :
  euclidean_distance p q = euclidean_distance q p.
Proof. unfold euclidean_distance. f_equal. ring. Qed.

Lemma vec3_eq (p q : vec3) :
  vx p = vx q -> vy p = vy q -> vz p = vz q -> p = q.
Proof. destruct p, q; cbn; intros; subst; reflexivity. Qed.

Lemma euclidean_distance_zero (p q : vec3) :
  euclidean_distance p q = 0 <-> p = q.
Proof.
  split.
  - unfold euclidean_distance. intros Hd.
    set (a := vx p - vx q) in *. set (b := vy p - vy q) in *.
    set (c := vz p - vz q) in *.
    pose proof (Rle_0_sqr a) as Ha. pose proof (Rle_0_sqr b) as Hb.
    pose proof (Rle_0_sqr c) as Hc. unfold Rsqr in *.
    assert (Hs : a * a + b * b + c * c = 0) by (apply sqrt_eq_0; lra).
    assert (a = 0 /\ b = 0 /\ c = 0) as (Ha0 & Hb0 & Hc0)
      by (repeat split; apply Rsqr_0_uniq; unfold Rsqr; lra).
    unfold a, b, c in *. apply vec3_eq; lra.
  - intros ->. apply euclidean_distance_self.
Qed.

Lemma sqrt_lt_sqr (s y : R) : 0 <= s -> 0 < y -> s < y * y -> sqrt s < y.
Proof.
  intros Hs Hy Hlt. rewrite <- (sqrt_square y) by lra.
  apply sqrt_lt_1_alt. lra.
Qed.

Lemma sqr_le_sqrt (x s : R) : 0 <= s -> x * x <= s -> Rabs x <= sqrt s.
Proof.
  intros Hs Hle. rewrite <- sqrt_Rsqr_abs. apply sqrt_le_1_alt.
  unfold Rsqr. lra.
Qed.

Lemma axis_le_distance (p q : vec3) :
  Rabs (vx p - vx q) <= euclidean_distance p q
  /\ Rabs (vy p - vy q) <= euclidean_distance p q
  /\ Rabs (vz p - vz q) <= euclidean_distance p q.
Proof.
  unfold euclidean_distance.
  generalize (vx p - vx q) (vy p - vy q) (vz p - vz q). intros a b c.
  pose proof (Rle_0_sqr a) as Ha. pose proof (Rle_0_sqr b) as Hb.
  pose proof (Rle_0_sqr c) as Hc. unfold Rsqr in *.
  repeat split; apply sqr_le_sqrt; lra.
Qed.

Lemma Rabs_lt_sqr (x a : R) : Rabs x < a -> x * x < a * a.
Proof. intros Hx. apply Rabs_def2 in Hx. nra. Qed.

Lemma within_grasp_tolerance_axes (tcp obj : vec3) :
  within_grasp_tolerance tcp obj = true
  <-> Rabs (vx tcp - vx obj) < 2 / 100 /\ Rabs (vy tcp - vy obj) < 2 / 100
      /\ Rabs (vz tcp - vz obj) < 1 / 100.
Proof.
  unfold within_grasp_tolerance.
  rewrite !andb_true_iff, !Rltb_true. tauto.
Qed.

Lemma within_grasp_tolerance_reach (tcp obj : vec3) :
  within_grasp_tolerance tcp obj = true ->
  euclidean_distance tcp obj < 3 / 100.
Proof.
  intros (Hx & Hy & Hz)%within_grasp_tolerance_axes.
  apply Rabs_lt_sqr in Hx, Hy, Hz.
  unfold euclidean_distance. revert Hx Hy Hz.
  generalize (vx tcp - vx obj) (vy tcp - vy obj) (vz tcp - vz obj).
  intros a b c Hx Hy Hz.
  pose proof (Rle_0_sqr a) as Ha. pose proof (Rle_0_sqr b) as Hb.
  pose proof (Rle_0_sqr c) as Hc. unfold Rsqr in *.
  apply sqrt_lt_sqr; lra.
Qed.

Lemma reach_within_grasp_tolerance (tcp obj : vec3) :
  euclidean_distance tcp obj < 1 / 100 ->
  within_grasp_tolerance tcp obj = true.
Proof.
  intros Hd. destruct (axis_le_distance tcp obj) as (Hx & Hy & Hz).
  apply within_grasp_tolerance_axes. repeat split; lra.
Qed.

Lemma within_grasp_tolerance_sym (tcp obj : vec3) :
  within_grasp_tolerance tcp obj = within_grasp_tolerance obj tcp.
Proof.
  unfold within_grasp_tolerance.
  now rewrite (Rabs_minus_sym (vx tcp)), (Rabs_minus_sym (vy tcp)),
    (Rabs_minus_sym (vz tcp)).
Qed.

Lemma shaped_reward_bound (tcp achieved desired : vec3) (c : bool) :
  shaped_reward tcp achieved desired c
  <= 6 - euclidean_distance tcp achieved
     - 10 * euclidean_distance achieved desired
  /\ (c = false ->
      shaped_reward tcp achieved desired c
      <= 1 - euclidean_distance tcp achieved
         - 10 * euclidean_distance achieved desired)
  /\ (within_grasp_tolerance tcp achieved = false ->
      shaped_reward tcp achieved desired c
      <= - euclidean_distance tcp achieved
         - 10 * euclidean_distance achieved desired).
Proof.
  unfold shaped_reward.
  destruct (within_grasp_tolerance tcp achieved), c; cbn;
    repeat split; intros; try discriminate; lra.
Qed.

Lemma shaped_reward_max (tcp achieved desired : vec3) (c : bool) :
  shaped_reward tcp achieved desired c = 6
  <-> tcp = achieved /\ achieved = desired /\ c = true.
Proof.
  pose proof (euclidean_distance_nonneg tcp achieved) as Hr.
  pose proof (euclidean_distance_nonneg achieved desired) as Ho.
  split.
  - intros Hmax.
    destruct (shaped_reward_bound tcp achieved desired c) as (Hb & Hc & Hw).
    destruct c; [|specialize (Hc eq_refl); lra].
    repeat split; apply euclidean_distance_zero; lra.
  - intros (-> & -> & ->). unfold shaped_reward.
    rewrite !euclidean_distance_self, within_grasp_tolerance_self. cbn. lra.
Qed.

(** ** The grasp flag *)

Lemma comprehension_fmap {A B C} (f : A -> result B) (h : B -> C)
  (f' : A -> result C) (l : list A) :
  (forall a, f' a = h <$> f a) ->
  comprehension f' l = map h <$> comprehension f l.
Proof.
  intros Hf. induction l as [|a l IH]; [reflexivity|].
  cbn [comprehension]. rewrite Hf, IH.
  destruct (f a); [|reflexivity]. cbn.
  now destruct (comprehension f l).
Qed.

Lemma comprehension_ext {A B} (f f' : A -> result B) (l : list A) :
  (forall a, f' a = f a) -> comprehension f' l = comprehension f l.
Proof.
  intros Hf. induction l as [|a l IH]; [reflexivity|].
  cbn [comprehension]. now rewrite Hf, IH.
Qed.

Lemma dict_keys_with_grasp (b : bool) (d : StepInfo) :
  dict_keys (with_grasp b d) = dict_keys d.
Proof. unfold dict_keys. cbn. now destruct (grasp d). Qed.

Lemma info_batch_with_grasp (b : bool) (info : info_arg) :
  info_batch (info_with_grasp b info) = regrasp b <$> info_batch info.
Proof.
  destruct info as [d|l]; unfold info_batch; cbn [iter info_with_grasp].
  - rewrite dict_keys_with_grasp.
    now destruct (dict_keys d).
  - rewrite !comprehension_map.
    rewrite (comprehension_ext
               (fun a => item_getitem (ItemDict a) "pos_tcp" pos_tcp)
               (fun a => item_getitem (ItemDict (with_grasp b a)) "pos_tcp"
                           pos_tcp)) by reflexivity.
    rewrite (comprehension_ext
               (fun a => item_getitem (ItemDict a) "collisions" collisions)
               (fun a => item_getitem (ItemDict (with_grasp b a)) "collisions"
                           collisions)) by reflexivity.
    rewrite (comprehension_fmap
               (fun a => item_getitem (ItemDict a) "grasp" grasp)
               (fun _ => b)
               (fun a => item_getitem (ItemDict (with_grasp b a)) "grasp"
                           grasp))
      by (intros a; cbn; now destruct (grasp a)).
    repeat match goal with |- context [comprehension ?f ?l] =>
      destruct (comprehension f l) end; reflexivity.
Qed.

Lemma info_scalar_with_grasp (b : bool) (info : info_arg) :
  info_scalar (info_with_grasp b info) = regrasp b <$> info_scalar info.
Proof.
  destruct info as [d|l]; [|reflexivity].
  unfold info_scalar. cbn.
  now destruct (pos_tcp d), (grasp d), (collisions d).
Qed.

Lemma compute_reward_locals_with_grasp (b : bool)
  (achieved_goal desired_goal : ndarray R) (info : info_arg) :
  compute_reward_locals achieved_goal desired_goal (info_with_grasp b info)
  = compute_reward_locals achieved_goal desired_goal info.
Proof.
  unfold compute_reward_locals.
  rewrite info_batch_with_grasp, info_scalar_with_grasp.
  destruct (info_batch info) as [[[p g] c]|e]; [reflexivity|].
  cbn [fmap result_fmap try_except].
  now destruct (info_scalar info) as [[[p g] c]|e'].
Qed.

(** ** Batches against goals of another shape *)

Lemma info_batch_empty :
  info_batch (InfoList []) = Ok (A1 [], A1 [], A1 []).
Proof. reflexivity. Qed.

Lemma compute_reward_body_empty_batch (achieved_goal desired_goal : ndarray R) :
  exists e,
    compute_reward_body achieved_goal desired_goal (InfoList []) = Raise e.
Proof.
  unfold compute_reward_body, compute_reward_locals.
  rewrite info_batch_empty. cbn -[distance].
  destruct (distance (A1 []) achieved_goal); eexists; reflexivity.
Qed.

Lemma bzip_mismatch {A B C} (f : A -> B -> C) (xs : list A) (ys : list B) :
  length xs <> length ys -> length xs <> 1%nat -> length ys <> 1%nat ->
  bzip f xs ys = Raise ValueError.
Proof.
  intros Hne Hx Hy. unfold bzip.
  destruct (Nat.eqb_spec (length xs) (length ys)); [contradiction|].
  destruct xs as [|x [|x' xs]], ys as [|y [|y' ys]]; cbn in *;
    congruence.
Qed.

Lemma compute_reward_body_mismatch (l1 l2 : list sample) :
  length l1 <> length l2 -> length l1 <> 1%nat -> length l2 <> 1%nat ->
  compute_reward_body (stack s_achieved l2) (stack s_desired l2)
    (InfoList (map sample_info l1))
  = Raise ValueError.
Proof.
  intros Hne H1 H2.
  unfold compute_reward_body, compute_reward_locals.
  destruct l1 as [|s l1]; [reflexivity|].
  rewrite info_batch_samples. cbn [try_except mbind result_bind].
  unfold distance, stack, np_sub.
  cbn [broadcast2 bdim Nat.eqb mbind result_bind].
  rewrite (bzip_mismatch (bzip Rminus)
             (map (fun s => vec3_list (s_tcp s)) (s :: l1))
             (map (fun s => vec3_list (s_achieved s)) l2));
    [reflexivity|now rewrite !length_map..].
Qed.

(** ** Further properties of the reward and of success *)

Section RewardProperties.
Context {Sim Gen : Type} `{PyBullet Sim} `{Generator Gen}.
Implicit Types self : @Grasp Sim Gen.

Lemma is_success_arr self (achieved desired : vec3) :
  is_success (arr achieved) (arr desired) self
  = (Ok (A0 (Rltb (euclidean_distance achieved desired)
               (distance_threshold self))), self).
Proof. unfold is_success. now rewrite distance_arr. Qed.

Lemma compute_reward_scalar self (tcp achieved desired : vec3) (g c : bool)
  (others : list string) :
  compute_reward (arr achieved) (arr desired)
    (InfoDict (step_info tcp g c others)) self
  = (Ok (A0 (shaped_reward tcp achieved desired c)), self).
Proof. unfold compute_reward, lift. now rewrite compute_reward_body_scalar. Qed.

(** X3: the reward of a complete record never exceeds 6, and it is 6 only
    when the gripper tip, the object and the target coincide and the
    gripper is in contact.  Without contact it is at most 1; with the
    gripper out of grasp position it is at most 0. *)
Theorem compute_reward_at_most_six self (tcp achieved desired : vec3)
  (g c : bool) (others : list string) :
  exists r : R,
    compute_reward (arr achieved) (arr desired)
      (InfoDict (step_info tcp g c others)) self = (Ok (A0 r), self)
    /\ r <= 6
    /\ (r = 6 <-> tcp = achieved /\ achieved = desired /\ c = true)
    /\ (c = false -> r <= 1)
    /\ (check_position_for_grasp (arr tcp) (arr achieved) = Ok (A0 false)
        -> r <= 0).
Proof.
  exists (shaped_reward tcp achieved desired c).
  pose proof (euclidean_distance_nonneg tcp achieved) as Hr.
  pose proof (euclidean_distance_nonneg achieved desired) as Ho.
  destruct (shaped_reward_bound tcp achieved desired c) as (Hb & Hc & Hw).
  repeat apply conj.
  - apply compute_reward_scalar.
  - lra.
  - apply shaped_reward_max.
  - apply shaped_reward_max.
  - intros Hf. specialize (Hc Hf). lra.
  - rewrite check_position_for_grasp_arr. intros [= Hf].
    specialize (Hw Hf). lra.
Qed.

(** X4: in [compute_reward] the grasp-position flag and the reach term
    bound each other: in grasp position the gripper tip is less than 0.03
    from the object, and a tip less than 0.01 from the object is in grasp
    position. *)
Theorem grasp_position_bounds_reach (tcp achieved desired : vec3)
  (g c : bool) (others : list string) :
  exists (r : R) (b : bool),
    reach_reward <$>
      compute_reward_locals (arr achieved) (arr desired)
        (InfoDict (step_info tcp g c others)) = Ok (A0 r)
    /\ position_for_grasp <$>
         compute_reward_locals (arr achieved) (arr desired)
           (InfoDict (step_info tcp g c others)) = Ok (A0 b)
    /\ 0 <= r
    /\ (b = true -> r < 3 / 100)
    /\ (r < 1 / 100 -> b = true).
Proof.
  exists (euclidean_distance tcp achieved),
    (within_grasp_tolerance tcp achieved).
  rewrite compute_reward_locals_scalar. repeat apply conj; try reflexivity.
  - apply euclidean_distance_nonneg.
  - apply within_grasp_tolerance_reach.
  - apply reach_within_grasp_tolerance.
Qed.

(** X5: success and reward together.  When [is_success] answers false
    the reward of a complete record is at most 6 - 10 * threshold; when
    it answers true and the gripper holds the object (in grasp position,
    in contact) the reward is above 5.97 - 10 * threshold. *)
Theorem reward_against_success self (tcp achieved desired : vec3)
  (g c : bool) (others : list string) :
  exists (ok : bool) (r : R),
    is_success (arr achieved) (arr desired) self = (Ok (A0 ok), self)
    /\ compute_reward (arr achieved) (arr desired)
         (InfoDict (step_info tcp g c others)) self = (Ok (A0 r), self)
    /\ (ok = false -> r <= 6 - 10 * distance_threshold self)
    /\ (ok = true ->
        check_position_for_grasp (arr tcp) (arr achieved) = Ok (A0 true) ->
        c = true ->
        r > 597 / 100 - 10 * distance_threshold self).
Proof.
  exists (Rltb (euclidean_distance achieved desired) (distance_threshold self)),
    (shaped_reward tcp achieved desired c).
  pose proof (euclidean_distance_nonneg tcp achieved) as Hr.
  destruct (shaped_reward_bound tcp achieved desired c) as (Hb & _ & _).
  repeat apply conj.
  - apply is_success_arr.
  - apply compute_reward_scalar.
  - intros Hf%Rltb_false. lra.
  - intros Ht%Rltb_true. rewrite check_position_for_grasp_arr.
    intros [= Hw] ->.
    pose proof (within_grasp_tolerance_reach _ _ Hw) as Hreach.
    unfold shaped_reward. rewrite Hw. cbn. lra.
Qed.

(** X6: the grasp flag of a record has to be there, but its value never
    reaches the reward: replacing the grasp flags of any info bundle, one
    record or a sequence, changes neither the reward nor the exception,
    whatever the goal arrays are. *)
Theorem compute_reward_ignores_grasp_flag self (b : bool)
  (achieved_goal desired_goal : ndarray R) (info : info_arg) :
  compute_reward achieved_goal desired_goal (info_with_grasp b info) self
  = compute_reward achieved_goal desired_goal info self.
Proof.
  unfold compute_reward, lift, compute_reward_body.
  now rewrite compute_reward_locals_with_grasp.
Qed.

(** X7: an empty sequence of records yields no reward: [compute_reward]
    raises on it, whatever the goal arrays are. *)
Theorem compute_reward_empty_batch_raises self
  (achieved_goal desired_goal : ndarray R) :
  exists e,
    compute_reward achieved_goal desired_goal (InfoList []) self
    = (Raise e, self).
Proof.
  unfold compute_reward, lift.
  destruct (compute_reward_body_empty_batch achieved_goal desired_goal)
    as [e ->].
  now exists e.
Qed.

(** X8: a batch of records against stacked goals of another length
    raises, unless one of the two lengths is 1 (then NumPy broadcasts):
    the rewards of a batch are never paired with the wrong goals
    silently. *)
Theorem compute_reward_mismatch_raises self (l1 l2 : list sample) :
  length l1 <> length l2 -> length l1 <> 1%nat -> length l2 <> 1%nat ->
  exists e,
    compute_reward (stack s_achieved l2) (stack s_desired l2)
      (InfoList (map sample_info l1)) self
    = (Raise e, self).
Proof.
  intros Hne H1 H2. unfold compute_reward, lift.
  rewrite compute_reward_body_mismatch by assumption.
  now exists ValueError.
Qed.

(** X9: [is_success] on stacked goals answers once per pair, in order,
    and the answer of a pair does not depend on the order of its two
    goals; a goal compared with itself is reached exactly when the
    threshold is positive. *)
Theorem is_success_per_pair self (f g : sample -> vec3) (l : list sample) :
  is_success (stack f l) (stack g l) self
  = (Ok (A1 (map (fun s => Rltb (euclidean_distance (f s) (g s))
                             (distance_threshold self)) l)), self)
  /\ is_success (stack g l) (stack f l) self
     = is_success (stack f l) (stack g l) self
  /\ (forall a d : vec3,
         is_success (arr d) (arr a) self = is_success (arr a) (arr d) self)
  /\ (forall a : vec3,
         is_success (arr a) (arr a) self = (Ok (A0 true), self)
         <-> 0 < distance_threshold self).
Proof.
  assert (Hs : forall f g : sample -> vec3,
             is_success (stack f l) (stack g l) self
             = (Ok (A1 (map (fun s => Rltb (euclidean_distance (f s) (g s))
                                        (distance_threshold self)) l)), self)).
  { intros f0 g0. unfold is_success. rewrite distance_stack.
    step_bind. unfold np_lt. now rewrite amap_map. }
  repeat apply conj.
  - apply Hs.
  - rewrite !Hs. do 3 f_equal. apply map_ext. intros s.
    now rewrite euclidean_distance_sym.
  - intros a d. rewrite !is_success_arr.
    now rewrite euclidean_distance_sym.
  - intros a. rewrite is_success_arr, euclidean_distance_self. split.
    + intros [= Ht]. now apply Rltb_true.
    + intros Ht. now rewrite (proj2 (Rltb_true _ _) Ht).
Qed.
(** X10: batching changes no reward: on a sequence of complete records with
    the goals stacked alongside, entry [i] of the result is the reward of
    a single call on record [i] and its two goals, and there is one entry
    per record. *)
Theorem compute_reward_batch_agrees_with_steps self (s : sample)
  (l : list sample) (i : nat) (smp : sample) :
  (s :: l) !! i = Some smp ->
  exists (out : list R) (r : R),
    compute_reward (stack s_achieved (s :: l)) (stack s_desired (s :: l))
      (InfoList (map sample_info (s :: l))) self = (Ok (A1 out), self)
    /\ length out = length (s :: l)
    /\ out !! i = Some r
    /\ compute_reward (arr (s_achieved smp)) (arr (s_desired smp))
         (InfoDict (sample_info smp)) self = (Ok (A0 r), self).
Proof.
  intros Hi.
  exists (map sample_reward (s :: l)), (sample_reward smp).
  repeat apply conj.
  - unfold compute_reward, lift. now rewrite compute_reward_body_stack.
  - apply length_map.
  - now rewrite list_lookup_fmap, Hi.
  - apply compute_reward_scalar.
Qed.
End RewardProperties.

(** X10, at the second of two records. *)
Lemma compute_reward_batch_agrees_with_steps_witness :
  let s0 := {| s_tcp := Vec3 0 0 0; s_achieved := Vec3 0 0 0;
               s_desired := Vec3 1 0 0; s_grasp := true;
               s_collisions := true; s_others := [] |} in
  let s1 := {| s_tcp := Vec3 1 0 0; s_achieved := Vec3 0 0 0;
               s_desired := Vec3 0 0 0; s_grasp := false;
               s_collisions := false; s_others := [] |} in
  [s0; s1] !! 1%nat = Some s1
  /\ exists (out : list R) (r : R),
      compute_reward (stack s_achieved [s0; s1]) (stack s_desired [s0; s1])
        (InfoList (map sample_info [s0; s1])) (default_task [])
      = (Ok (A1 out), default_task [])
      /\ length out = length [s0; s1]
      /\ out !! 1%nat = Some r
      /\ compute_reward (arr (s_achieved s1)) (arr (s_desired s1))
           (InfoDict (sample_info s1)) (default_task [])
         = (Ok (A0 r), default_task []).
Proof.
  cbn zeta. split; [reflexivity|].
  exact (compute_reward_batch_agrees_with_steps (default_task []) _ [_] 1 _
           eq_refl).
Defined.

(** X8, at three records against two goals. *)
Lemma compute_reward_mismatch_raises_witness :
  let s := {| s_tcp := Vec3 0 0 0; s_achieved := Vec3 0 0 0;
              s_desired := Vec3 1 0 0; s_grasp := true;
              s_collisions := true; s_others := [] |} in
  length [s; s; s] <> length [s; s] /\ length [s; s; s] <> 1%nat
  /\ length [s; s] <> 1%nat
  /\ exists e,
      compute_reward (stack s_achieved [s; s]) (stack s_desired [s; s])
        (InfoList (map sample_info [s; s; s])) (default_task [])
      = (Raise e, default_task []).
Proof.
  cbn zeta.
  refine (let s := {| s_tcp := Vec3 0 0 0; s_achieved := Vec3 0 0 0;
              s_desired := Vec3 1 0 0; s_grasp := true;
              s_collisions := true; s_others := [] |} in _).
  assert (Ha : length [s; s; s] <> length [s; s]) by (cbn; lia).
  assert (Hb : length [s; s; s] <> 1%nat) by (cbn; lia).
  assert (Hc : length [s; s] <> 1%nat) by (cbn; lia).
  repeat apply conj; try assumption.
  exact (compute_reward_mismatch_raises (default_task []) [s; s; s] [s; s]
           Ha Hb Hc).
Defined.

(** ** Further properties of sampling, reset and the observation *)

Section EpisodeProperties.
Context {Sim Gen : Type} `{PyBullet Sim} `{Generator Gen}.
Implicit Types self : @Grasp Sim Gen.

Lemma uniform_advance (low high : vec3) (g : Gen) :
  snd (uniform low high g) = advance 3 g.
Proof.
  cbn [advance]. unfold uniform.
  destruct (next_double g) as [u0 g0]. cbn [snd].
  destruct (next_double g0) as [u1 g1]. cbn [snd].
  now destruct (next_double g1) as [u2 g2].
Qed.

Lemma advance_add (m n : nat) (g : Gen) :
  advance (m + n) g = advance n (advance m g).
Proof.
  revert g. induction m as [|m IH]; intros g; [reflexivity|].
  cbn [advance Nat.add]. apply IH.
Qed.

Lemma goal_draw_advance (size : R) (low high : vec3) (g : Gen) :
  snd (goal_draw size low high g) = advance 4 g.
Proof.
  change 4%nat with (3 + 1)%nat.
  rewrite advance_add, <- (uniform_advance low high).
  unfold goal_draw, random.
  destruct (uniform low high g) as [noise g1]. cbn [snd advance].
  now destruct (next_double g1) as [u g2].
Qed.

Lemma object_draw_advance (size : R) (low high : vec3) (g : Gen) :
  snd (object_draw size low high g) = advance 3 g.
Proof.
  rewrite <- (uniform_advance low high). unfold object_draw.
  now destruct (uniform low high g) as [noise g1].
Qed.

Lemma reset_advance self :
  np_random (snd (reset self)) = advance 7 (np_random self).
Proof.
  rewrite reset_run. unfold reset_state.
  cbn [snd np_random set_initial_height set_sim set_np_random].
  rewrite object_draw_advance, goal_draw_advance.
  now rewrite <- advance_add.
Qed.

Lemma goal_draw_z_lower (size : R) (low high : vec3) (g : Gen) :
  (forall g' : Gen, 0 <= fst (next_double g')) ->
  vz low = 0 -> 0 <= vz high ->
  15 / 100 + size / 2 <= vz (fst (goal_draw size low high g)).
Proof.
  intros Hu Hl Hh. unfold goal_draw, uniform, random.
  destruct (next_double g) as [u0 g0].
  destruct (next_double g0) as [u1 g1].
  pose proof (Hu g1) as Hu2.
  destruct (next_double g1) as [u2 g2].
  destruct (next_double g2) as [u g3]. cbn in *.
  rewrite Hl. destruct (Rltb u (3 / 10)); nra.
Qed.

Lemma goal_draw_z_fixed (size : R) (low high : vec3) (g : Gen) :
  vz low = 0 -> vz high = 0 ->
  vz (fst (goal_draw size low high g)) = 15 / 100 + size / 2.
Proof.
  intros Hl Hh. unfold goal_draw.
  pose proof (uniform_z low high g Hl Hh) as Hz.
  destruct (uniform low high g) as [noise g1].
  destruct (random g1) as [u g2]. cbn in *.
  destruct (Rltb u (3 / 10)); rewrite ?Hz; lra.
Qed.

Lemma object_draw_bounds (size : R) (low high : vec3) (g : Gen) :
  (forall g' : Gen, 0 <= fst (next_double g') < 1) ->
  vx low <= vx high -> vy low <= vy high -> vz low <= vz high ->
  let p := fst (object_draw size low high g) in
  vx low <= vx p <= vx high
  /\ - (2 / 10) + vy low <= vy p <= - (2 / 10) + vy high
  /\ size / 2 + vz low <= vz p <= size / 2 + vz high.
Proof.
  intros Hu Hx Hy Hz. unfold object_draw.
  pose proof (uniform_bounds low high g Hu Hx Hy Hz) as Hb.
  destruct (uniform low high g) as [noise g1]. cbn in *.
  repeat split; lra.
Qed.

Lemma reachable_config (sim0 : Sim) (gen : Gen) (rt : string)
  (thr gxy gz oxy : R) (calls : list call) :
  let self := run calls (__init__ sim0 gen rt thr gxy gz oxy) in
  distance_threshold self = thr
  /\ object_size self = 4 / 100
  /\ goal_range_low self = Vec3 (- gxy / 2) (- gxy / 2) 0
  /\ goal_range_high self = Vec3 (gxy / 2) (gxy / 2) gz
  /\ obj_range_low self = Vec3 (- oxy / 2) (- oxy / 2) 0
  /\ obj_range_high self = Vec3 (oxy / 2) (oxy / 2) 0.
Proof.
  cbn zeta.
  destruct (run_same_config calls (__init__ sim0 gen rt thr gxy gz oxy))
    as (_ & Hth & Hsz & Hgl & Hgh & Hol & Hoh).
  rewrite <- Hth, <- Hsz, <- Hgl, <- Hgh, <- Hol, <- Hoh.
  now repeat split.
Qed.

Lemma get_achieved_goal_run self :
  get_achieved_goal self
  = (Ok (arr (get_base_position "object" (sim self))), self).
Proof. reflexivity. Qed.

Lemma reset_state_fields self :
  goal (reset_state self)
  = Some (fst (goal_draw (object_size self) (goal_range_low self)
                 (goal_range_high self) (np_random self)))
  /\ distance_threshold (reset_state self) = distance_threshold self
  /\ initial_height (reset_state self)
     = vz (get_base_position "object" (sim (reset_state self)))
  /\ sim (reset_state self)
     = set_base_pose "object"
         (fst (object_draw (object_size self) (obj_range_low self)
                 (obj_range_high self)
                 (snd (goal_draw (object_size self) (goal_range_low self)
                         (goal_range_high self) (np_random self)))))
         identity_quaternion
         (set_base_pose "target"
            (fst (goal_draw (object_size self) (goal_range_low self)
                    (goal_range_high self) (np_random self)))
            identity_quaternion (sim self)).
Proof. now repeat split. Qed.

(** X11: a reset draws exactly seven doubles from the task's generator,
    four for the goal (the fourth decides the z rule, also when the z
    range is 0) and three for the object position; no other exposed
    operation draws any. *)
Theorem reset_draws_seven_doubles self :
  np_random (snd (reset self)) = advance 7 (np_random self)
  /\ np_random (snd (_sample_goal self)) = advance 4 (np_random self)
  /\ np_random (snd (_sample_object self)) = advance 3 (np_random self)
  /\ (forall q : query, np_random (after_query q self) = np_random self).
Proof.
  repeat apply conj.
  - apply reset_advance.
  - rewrite _sample_goal_run. cbn [snd np_random set_np_random].
    apply goal_draw_advance.
  - rewrite _sample_object_run. cbn [snd np_random set_np_random].
    apply object_draw_advance.
  - intros q. now rewrite after_query_id.
Qed.

(** X12: a reset does not look at the episode it ends: two tasks with the
    same configuration, generator and simulator state, whatever their
    goals and initial heights, are the same task after a reset. *)
Theorem reset_forgets_episode self1 self2 :
  same_config self1 self2 ->
  np_random self1 = np_random self2 ->
  sim self1 = sim self2 ->
  reset self1 = reset self2.
Proof.
  intros (Hrt & Hth & Hsz & Hgl & Hgh & Hol & Hoh) Hg Hs.
  rewrite !reset_run. unfold reset_state, set_initial_height, set_sim,
    set_np_random, set_goal. cbn.
  now rewrite Hrt, Hth, Hsz, Hgl, Hgh, Hol, Hoh, Hg, Hs.
Qed.

(** X13: with [goal_z_range] 0, the constructor's default, every sampled
    goal has the z-coordinate of the base point, 0.15 plus half the
    object size (0.17), whatever the generator draws: the draw compared
    with 0.3 then decides nothing. *)
Theorem default_goal_height (sim0 : Sim) (gen : Gen) (rt : string)
  (thr gxy oxy : R) (calls : list call) :
  let self := run calls (__init__ sim0 gen rt thr gxy 0 oxy) in
  exists (g : vec3) self1,
    _sample_goal self = (Ok g, self1)
    /\ vz g = 15 / 100 + object_size self / 2
    /\ vz g = 17 / 100.
Proof.
  cbn zeta.
  destruct (reachable_config sim0 gen rt thr gxy 0 oxy calls)
    as (_ & Hsz & Hgl & Hgh & _ & _).
  rewrite _sample_goal_run. do 2 eexists. split; [reflexivity|].
  rewrite goal_draw_z_fixed, Hsz; [lra|now rewrite Hgl|now rewrite Hgh].
Qed.

(** X14: with a generator whose doubles lie in [0, 1) and a non-negative
    [obj_xy_range], every sampled object position lies within
    obj_xy_range / 2 of (0, -0.2) in x and y, at height 0.02. *)
Theorem sampled_object_in_range (sim0 : Sim) (gen : Gen) (rt : string)
  (thr gxy gz oxy : R) (calls : list call) :
  (forall g : Gen, 0 <= fst (next_double g) < 1) ->
  0 <= oxy ->
  let self := run calls (__init__ sim0 gen rt thr gxy gz oxy) in
  exists (p : vec3) self1,
    _sample_object self = (Ok p, self1)
    /\ - (oxy / 2) <= vx p <= oxy / 2
    /\ - (2 / 10) - oxy / 2 <= vy p <= - (2 / 10) + oxy / 2
    /\ vz p = 2 / 100.
Proof.
  intros Hu Hxy. cbn zeta.
  destruct (reachable_config sim0 gen rt thr gxy gz oxy calls)
    as (_ & Hsz & _ & _ & Hol & Hoh).
  rewrite _sample_object_run, Hsz, Hol, Hoh.
  do 2 eexists. split; [reflexivity|].
  destruct (object_draw_bounds (4 / 100)
              (Vec3 (- oxy / 2) (- oxy / 2) 0) (Vec3 (oxy / 2) (oxy / 2) 0)
              (np_random (run calls (__init__ sim0 gen rt thr gxy gz oxy)))
              Hu) as (Hbx & Hby & Hbz);
    cbn [vx vy vz] in *; lra.
Qed.


(** X16: on a simulator that reports for a body the position it was last
    given, a reset is read back: right after it [get_achieved_goal]
    returns the sampled object position and [get_desired_goal] the
    sampled goal. *)
Theorem reset_is_read_back self :
  (forall (s : Sim) (body : string) (p : vec3) (q : list R),
      get_base_position body (set_base_pose body p q s) = p) ->
  exists (g p : vec3) self1,
    reset_samples self = (Ok (g, p), self1)
    /\ get_achieved_goal (snd (reset self)) = (Ok (arr p), snd (reset self))
    /\ get_desired_goal (snd (reset self)) = (Ok (arr g), snd (reset self)).
Proof.
  intros Hsim. rewrite reset_samples_run, reset_run. cbn [snd].
  do 3 eexists. split; [reflexivity|].
  rewrite get_achieved_goal_run, get_desired_goal_run.
  destruct (reset_state_fields self) as (-> & _ & _ & ->).
  now rewrite Hsim.
Qed.

(** X17: an episode never starts solved.  On a simulator that reports
    the position a body was given, with a generator that draws no
    negative double, a non-negative [goal_z_range] and a threshold of at
    most 0.15, [is_success] on the achieved and the desired goal answers
    false right after every reset: the goal lies at least 0.15 above the
    object. *)
Theorem fresh_episode_not_solved (sim0 : Sim) (gen : Gen) (rt : string)
  (thr gxy gz oxy : R) (calls : list call) :
  (forall (s : Sim) (body : string) (p : vec3) (q : list R),
      get_base_position body (set_base_pose body p q s) = p) ->
  (forall g : Gen, 0 <= fst (next_double g)) ->
  0 <= gz -> thr <= 15 / 100 ->
  let self := snd (reset (run calls (__init__ sim0 gen rt thr gxy gz oxy))) in
  exists achieved desired : ndarray R,
    get_achieved_goal self = (Ok achieved, self)
    /\ get_desired_goal self = (Ok desired, self)
    /\ is_success achieved desired self = (Ok (A0 false), self).
Proof.
  intros Hsim Hu Hz Hthr. cbn zeta.
  destruct (reachable_config sim0 gen rt thr gxy gz oxy calls)
    as (Hth & Hsz & Hgl & Hgh & Hol & Hoh).
  set (self0 := run calls (__init__ sim0 gen rt thr gxy gz oxy)) in *.
  rewrite reset_run. cbn [snd].
  rewrite get_achieved_goal_run, get_desired_goal_run.
  destruct (reset_state_fields self0) as (Hgoal & Hthr' & _ & Hs).
  rewrite Hgoal, Hs, Hsim. do 2 eexists.
  split; [reflexivity|]. split; [reflexivity|].
  rewrite is_success_arr, Hthr', Hth. do 3 f_equal.
  apply Rltb_false.
  set (p := fst (object_draw _ _ _ _)).
  set (g := fst (goal_draw _ _ _ _)).
  assert (Hp : vz p = 4 / 100 / 2).
  { unfold p. rewrite object_draw_z, Hsz; [reflexivity| |].
    - now rewrite Hol.
    - now rewrite Hoh. }
  assert (Hg : 15 / 100 + 4 / 100 / 2 <= vz g).
  { unfold g. rewrite Hsz. apply goal_draw_z_lower; [exact Hu| |].
    - now rewrite Hgl.
    - now rewrite Hgh. }
  destruct (axis_le_distance p g) as (_ & _ & Hd).
  assert (Habs : 15 / 100 <= Rabs (vz p - vz g)).
  { rewrite Rabs_left by lra. lra. }
  lra.
Qed.
End EpisodeProperties.

(** X12, at a task and the same task with a goal and a height set. *)
Lemma reset_forgets_episode_witness :
  let self1 := default_task [1 / 2] in
  let self2 := set_goal (Vec3 1 1 1) (set_initial_height 1 self1) in
  same_config self1 self2 /\ np_random self1 = np_random self2
  /\ sim self1 = sim self2 /\ reset self1 = reset self2.
Proof.
  cbn zeta.
  assert (Hc : same_config (default_task [1 / 2])
                 (set_goal (Vec3 1 1 1)
                    (set_initial_height 1 (default_task [1 / 2]))))
    by now repeat split.
  split; [exact Hc|]. split; [reflexivity|]. split; [reflexivity|].
  exact (reset_forgets_episode _ _ Hc eq_refl eq_refl).
Defined.

Lemma half_gen_unit (g : unit) : 0 <= fst (next_double g) < 1.
Proof. destruct g. cbn. lra. Qed.

Lemma half_gen_nonneg (g : unit) : 0 <= fst (next_double g).
Proof. destruct g. cbn. lra. Qed.

(** X14, on the generator that always draws one half. *)
Lemma sampled_object_in_range_witness :
  (forall g : unit, 0 <= fst (next_double g) < 1)
  /\ 0 <= 1 / 10
  /\ exists (p : vec3) self1,
      _sample_object (__init__ ([] : list (string * vec3)) tt "sparse"
                        (5 / 100) (1 / 10) 0 (1 / 10))
      = (Ok p, self1)
      /\ - (1 / 10 / 2) <= vx p <= 1 / 10 / 2
      /\ - (2 / 10) - 1 / 10 / 2 <= vy p <= - (2 / 10) + 1 / 10 / 2
      /\ vz p = 2 / 100.
Proof.
  assert (Hxy : 0 <= 1 / 10) by lra.
  repeat apply conj; [exact half_gen_unit|exact Hxy|].
  exact (sampled_object_in_range ([] : list (string * vec3)) tt "sparse"
           (5 / 100) (1 / 10) 0 (1 / 10) [] half_gen_unit Hxy).
Defined.

(** X16, on the scripted simulator. *)
Lemma reset_is_read_back_witness :
  (forall (s : list (string * vec3)) (body : string) (p : vec3) (q : list R),
      get_base_position body (set_base_pose body p q s) = p)
  /\ exists (g p : vec3) self1,
      reset_samples (default_task []) = (Ok (g, p), self1)
      /\ get_achieved_goal (snd (reset (default_task [])))
         = (Ok (arr p), snd (reset (default_task [])))
      /\ get_desired_goal (snd (reset (default_task [])))
         = (Ok (arr g), snd (reset (default_task []))).
Proof.
  split; [exact last_position_set|].
  exact (reset_is_read_back (default_task []) last_position_set).
Defined.

(** X17, on the scripted simulator and the generator of one half, with
    the constructor's defaults. *)
Lemma fresh_episode_not_solved_witness :
  (forall (s : list (string * vec3)) (body : string) (p : vec3) (q : list R),
      get_base_position body (set_base_pose body p q s) = p)
  /\ (forall g : unit, 0 <= fst (next_double g))
  /\ 0 <= 0 /\ 5 / 100 <= 15 / 100
  /\ exists achieved desired : ndarray R,
      let self :=
        snd (reset (__init__ ([] : list (string * vec3)) tt "sparse"
                      (5 / 100) (1 / 10) 0 (1 / 10))) in
      get_achieved_goal self = (Ok achieved, self)
      /\ get_desired_goal self = (Ok desired, self)
      /\ is_success achieved desired self = (Ok (A0 false), self).
Proof.
  assert (Hz : 0 <= 0) by lra.
  assert (Ht : 5 / 100 <= 15 / 100) by lra.
  repeat apply conj;
    [exact last_position_set|exact half_gen_nonneg|exact Hz|exact Ht|].
  exact (fresh_episode_not_solved ([] : list (string * vec3)) tt "sparse"
           (5 / 100) (1 / 10) 0 (1 / 10) [] last_position_set
           half_gen_nonneg Hz Ht).
Defined.

(** ** The height helpers and the shape of positions *)

Lemma np_sub_scalar (z : ndarray R) (h : R) :
  np_sub z (A0 h) = Ok (amap (fun x => x - h) z).
Proof. now destruct z. Qed.

Lemma getitem_raises {A} (a : ndarray A) (i : nat) (e : exn) :
  getitem a i = Raise e -> e = IndexError.
Proof.
  destruct a as [x|xs|c rows]; cbn.
  - congruence.
  - destruct (xs !! i); congruence.
  - destruct (rows !! i); congruence.
Qed.

Lemma all_entries_amap {A B} (P : B -> Prop) (f : A -> B) (a : ndarray A) :
  (forall x, P (f x)) -> all_entries P (amap f a).
Proof.
  intros HP. destruct a as [x|xs|c rows]; cbn.
  - apply HP.
  - apply Forall_map, Forall_forall. intros x _. apply HP.
  - apply Forall_map, Forall_forall. intros r _.
    apply Forall_map, Forall_forall. intros x _. apply HP.
Qed.

Lemma clip_bounds (x : R) : 0 <= Rmin (Rmax x 0) (15 / 100) <= 15 / 100.
Proof.
  unfold Rmin, Rmax. repeat destruct (Rle_dec _ _); lra.
Qed.

Lemma clip_cases (x : R) :
  (x <= 0 -> Rmin (Rmax x 0) (15 / 100) = 0)
  /\ (0 <= x <= 15 / 100 -> Rmin (Rmax x 0) (15 / 100) = x)
  /\ (15 / 100 <= x -> Rmin (Rmax x 0) (15 / 100) = 15 / 100).
Proof.
  unfold Rmin, Rmax. repeat destruct (Rle_dec _ _); repeat split; intros; lra.
Qed.

Section HeightProperties.
Context {Sim Gen : Type} `{PyBullet Sim} `{Generator Gen}.
Implicit Types self : @Grasp Sim Gen.

Lemma height_diff_run self (pos_obj : ndarray R) :
  height_diff pos_obj self
  = ((fun z => np_clip (amap (fun x => x - initial_height self) z)
                 0 (15 / 100))
     <$> getitem (np_T pos_obj) 2, self).
Proof.
  unfold height_diff. step_bind.
  destruct (getitem (np_T pos_obj) 2) as [z|e]; [|reflexivity].
  now rewrite np_sub_scalar.
Qed.

Lemma height_penalty_run self (pos_obj : ndarray R) :
  height_penalty pos_obj self
  = ((fun z => astype_int
                 (np_gt (amap (fun x => x - initial_height self) z)
                    (15 / 100)))
     <$> getitem (np_T pos_obj) 2, self).
Proof.
  unfold height_penalty. step_bind.
  destruct (getitem (np_T pos_obj) 2) as [z|e]; [|reflexivity].
  now rewrite np_sub_scalar.
Qed.

(** X18: whatever array of positions they are given, the height helpers
    leave the task as it was and either raise IndexError (the array has
    no third component) or return, [height_diff] entries between 0 and
    0.15 and [height_penalty] entries that are 0 or 1. *)
Theorem height_helpers_bounded self (pos_obj : ndarray R) :
  match fst (height_diff pos_obj self) with
  | Ok out => all_entries (fun d => 0 <= d <= 15 / 100) out
  | Raise e => e = IndexError
  end
  /\ match fst (height_penalty pos_obj self) with
     | Ok out => all_entries (fun k => k = 0%Z \/ k = 1%Z) out
     | Raise e => e = IndexError
     end
  /\ snd (height_diff pos_obj self) = self
  /\ snd (height_penalty pos_obj self) = self.
Proof.
  rewrite height_diff_run, height_penalty_run. cbn [fst snd].
  destruct (getitem (np_T pos_obj) 2) as [z|e] eqn:Hz; cbn.
  - repeat apply conj; try reflexivity.
    + unfold np_clip. apply all_entries_amap. intros x. apply clip_bounds.
    + unfold astype_int. apply all_entries_amap.
      intros [|]; cbn; auto.
  - apply getitem_raises in Hz. now repeat split.
Qed.

(** X19: on one position, [height_penalty] is 1 exactly when the object
    is more than 0.15 above the initial height, and then [height_diff] is
    at its cap 0.15; [height_diff] is 0 up to the initial height and the
    height gained in between.  On stacked positions [height_diff] answers
    per position, in order. *)
Theorem height_penalty_caps_diff self (pos : vec3) (f : sample -> vec3)
  (l : list sample) :
  (exists (k : Z) (d : R),
      height_penalty (arr pos) self = (Ok (A0 k), self)
      /\ height_diff (arr pos) self = (Ok (A0 d), self)
      /\ (k = 1%Z <-> 15 / 100 < vz pos - initial_height self)
      /\ (k = 1%Z -> d = 15 / 100)
      /\ (vz pos <= initial_height self -> d = 0)
      /\ (0 <= vz pos - initial_height self <= 15 / 100
          -> d = vz pos - initial_height self))
  /\ height_diff (stack f l) self
     = (Ok (A1 (map (fun s => Rmin (Rmax (vz (f s) - initial_height self) 0)
                                (15 / 100)) l)), self).
Proof.
  split.
  - exists (Z.b2z (Rltb (15 / 100) (vz pos - initial_height self))),
      (Rmin (Rmax (vz pos - initial_height self) 0) (15 / 100)).
    destruct (clip_cases (vz pos - initial_height self)) as (Hlo & Hmid & Hhi).
    repeat apply conj; try reflexivity.
    + destruct (Rltb _ _) eqn:Hlt; cbn.
      * now apply Rltb_true in Hlt.
      * discriminate.
    + intros Hlt. now rewrite (proj2 (Rltb_true _ _) Hlt).
    + destruct (Rltb _ _) eqn:Hlt; cbn; [|discriminate].
      intros _. apply Rltb_true in Hlt. apply Hhi. lra.
    + intros Hle. apply Hlo. lra.
    + exact Hmid.
  - rewrite height_diff_run. unfold stack. cbn [np_T].
    rewrite transpose_stack. cbn [getitem lookup list_lookup fmap result_fmap].
    unfold np_clip. now rewrite !amap_map.
Qed.

(** X20: right after a reset the helpers register no lift, on every
    simulator: the initial height is the height [get_achieved_goal] then
    reports, so [height_diff] of the achieved goal is 0 and
    [height_penalty] is 0. *)
Theorem no_lift_after_reset self :
  let self' := snd (reset self) in
  exists achieved : ndarray R,
    get_achieved_goal self' = (Ok achieved, self')
    /\ height_diff achieved self' = (Ok (A0 0), self')
    /\ height_penalty achieved self' = (Ok (A0 0%Z), self').
Proof.
  cbn zeta. rewrite reset_run. cbn [snd].
  rewrite get_achieved_goal_run. eexists. split; [reflexivity|].
  rewrite height_diff_run, height_penalty_run.
  destruct (reset_state_fields self) as (_ & _ & -> & _).
  cbn. rewrite Rminus_diag. split.
  - do 3 f_equal. apply (clip_cases 0). lra.
  - do 3 f_equal. rewrite (proj2 (Rltb_false _ _)); [reflexivity|lra].
Qed.
End HeightProperties.

Lemma check_position_for_grasp_short (xs ys : list R) :
  (length xs < 3 \/ length ys < 3)%nat ->
  check_position_for_grasp (A1 xs) (A1 ys) = Raise IndexError.
Proof.
  intros Hlen.
  destruct xs as [|x0 [|x1 [|x2 xs]]], ys as [|y0 [|y1 [|y2 ys]]];
    cbn in Hlen; try reflexivity; lia.
Qed.

(** X21: [check_position_for_grasp] reads the first three components of
    its two positions and nothing else: longer vectors are tested on
    their first three components, whatever follows, and a vector with
    fewer than three components raises IndexError. *)
Theorem check_position_for_grasp_components :
  (forall (tcp obj : vec3) (more1 more2 : list R),
      check_position_for_grasp (A1 (vec3_list tcp ++ more1))
        (A1 (vec3_list obj ++ more2))
      = check_position_for_grasp (arr tcp) (arr obj))
  /\ (forall xs ys : list R,
         (length xs < 3 \/ length ys < 3)%nat ->
         check_position_for_grasp (A1 xs) (A1 ys) = Raise IndexError)
  /\ (forall tcp obj : vec3,
         check_position_for_grasp (arr obj) (arr tcp)
         = check_position_for_grasp (arr tcp) (arr obj)).
Proof.
  repeat apply conj.
  - reflexivity.
  - apply check_position_for_grasp_short.
  - intros tcp obj. rewrite !check_position_for_grasp_arr.
    now rewrite within_grasp_tolerance_sym.
Qed.
